(** * django_socio_grpc.generics: GenericService

    A shallow embedding of [GenericService] (src/django_socio_grpc/generics.py):
    collection access, lookup resolution, object resolution in its blocking
    and its coroutine form, the filter-backend chain, the serializer context
    and the cached paginator.

    Python objects that the methods only pass around are records; the
    collaborators the class imports (Django's [get_object_or_404], the filter
    backends, the permission checks, the serializer class, the paginator's
    [paginate_queryset], [model_meta.get_model_pk]) are variables of the
    section that holds the methods.  Exceptions are values of [outcome];
    object identity and the number of constructed paginators live in a
    [World] that the methods thread through a small state-and-error monad. *)

From Stdlib Require Import ZArith Lia Bool DecimalString.
From stdpp Require Import gmap strings list fin_maps pretty.

Local Open Scope string_scope.

(** ** Python values and text *)

(** The scalar values a request field can carry. *)
Inductive value :=
| VInt (z : Z)
| VStr (s : string).

#[global] Instance value_eq_dec : EqDecision value.
Proof. solve_decision. Defined.

(** [str(v)], as an f-string formats a field value. *)
Definition str (v : value) : string :=
  match v with
  | VInt z => pretty z
  | VStr s => s
  end.

(** The character [chr(34)], for the quoted field name of an assertion
    message. *)
Definition dquote : string := String (Ascii.ascii_of_nat 34) EmptyString.

(** [needle in haystack] on text. *)
Definition contains (needle haystack : string) : Prop :=
  exists before after, haystack = before ++ needle ++ after.

(** Truth value of an optional string attribute: [None] and the empty string
    are false, as the operands of Python's [or]. *)
Definition truthy (o : option string) : bool :=
  match o with
  | Some s => negb (String.eqb s "")
  | None => false
  end.

(** ** Exceptions *)

Inductive exn_class :=
| AssertionError
| AttributeError
| TypeError
| ValueError
| ValidationError
| Http404
| DoesNotExist
| MultipleObjectsReturned
| FieldError
| NotFound
| PermissionDenied.

#[global] Instance exn_class_eq_dec : EqDecision exn_class.
Proof. solve_decision. Defined.

(** A raised exception: its class and its message; [ExnFrom] is one raised
    by [raise ... from cause], which keeps the original as [__cause__]. *)
Inductive exn :=
| Exn (cls : exn_class) (msg : string)
| ExnFrom (cls : exn_class) (msg : string) (cause : exn).

(** [type(e)] *)
Definition exn_cls (e : exn) : exn_class :=
  match e with
  | Exn c _ => c
  | ExnFrom c _ _ => c
  end.

(** [str(e)] *)
Definition exn_msg (e : exn) : string :=
  match e with
  | Exn _ m => m
  | ExnFrom _ m _ => m
  end.

Inductive outcome (A : Type) :=
| Return (a : A)
| Raise (e : exn).
Arguments Return {A} a.
Arguments Raise {A} e.

(** ** The persistence layer's data *)

Inductive field_type := IntegerField | CharField.

Record Field := {
  field_name : string;
  primary_key : bool;
  field_kind : field_type
}.

(** A model class: [__name__] and its fields ([_meta.fields]). *)
Record Model := {
  model_name : string;
  model_fields : list Field
}.

(** A persisted entity, by its attribute values. *)
Record Entity := {
  attrs : gmap string value
}.

(** A [QuerySet] handle: the object's identity, its model and the rows it
    denotes. *)
Record QuerySet := {
  qs_oid : nat;
  model : Model;
  rows : list Entity
}.

(** What a service may declare as its collection: a [QuerySet], or any other
    iterable (a list of entities, by identity and items). *)
Inductive Collection :=
| CQuerySet (q : QuerySet)
| CIterable (oid : nat) (items : list Entity).

(** [isinstance(c, QuerySet)] *)
Definition isinstance_QuerySet (c : Collection) : bool :=
  match c with
  | CQuerySet _ => true
  | CIterable _ _ => false
  end.

(** [id(c)] *)
Definition collection_oid (c : Collection) : nat :=
  match c with
  | CQuerySet q => qs_oid q
  | CIterable oid _ => oid
  end.

(** ** The world: object allocation *)

(** [next_oid] is the identity the next constructed object gets;
    [paginators_built] lists the identities of the paginators constructed so
    far, oldest first. *)
Record World := {
  next_oid : nat;
  paginators_built : list nat
}.

Definition M (A : Type) : Type := World -> outcome A * World.

Definition ret {A} (a : A) : M A := fun w => (Return a, w).
Definition raise {A} (e : exn) : M A := fun w => (Raise e, w).
Definition bind {A B} (m : M A) (k : A -> M B) : M B :=
  fun w =>
    match m w with
    | (Return a, w') => k a w'
    | (Raise e, w') => (Raise e, w')
    end.

Notation "'let*' x ':=' m 'in' k" := (bind m (fun x => k))
  (at level 10, x name, m at level 100, k at level 200).

(** The result of calling a collaborator, inside a method. *)
Definition call {A} (r : outcome A) : M A := fun w => (r, w).

(** [try: body except: handler], the handler deciding by itself whether it
    catches. *)
Definition try_except {A} (body : M A) (handler : exn -> M A) : M A :=
  fun w =>
    match body w with
    | (Return a, w') => (Return a, w')
    | (Raise e, w') => handler e w'
    end.

(** [a or b] on an optional string attribute: [b] is evaluated only when
    [a] is false. *)
Definition py_or (a : option string) (b : M string) : M string :=
  match a with
  | Some s => if truthy a then ret s else b
  | None => b
  end.

(** [assert cond, msg] *)
Definition py_assert (cond : bool) (msg : string) : M unit :=
  if cond then ret tt else raise (Exn AssertionError msg).

(** Allocation of a fresh object identity. *)
Definition new_oid : M nat :=
  fun w => (Return (next_oid w),
            {| next_oid := S (next_oid w); paginators_built := paginators_built w |}).

(** ** Coroutines *)

(** An [async def] call yields a coroutine; awaiting it (or running it to
    completion from blocking code) runs its body. *)
Inductive Coroutine (A : Type) :=
| Coro (body : M A).
Arguments Coro {A} body.

Definition await {A} (c : Coroutine A) : M A := let 'Coro body := c in body.
Definition run_until_complete {A} (c : Coroutine A) : M A := await c.

(** [asgiref.sync.sync_to_async(f)]: the blocking [f] as a coroutine function. *)
Definition sync_to_async {A B} (f : A -> M B) : A -> Coroutine B :=
  fun a => Coro (f a).

(** [asgiref.sync.async_to_sync(f)]: the coroutine function [f] run to
    completion by the caller. *)
Definition async_to_sync {A B} (f : A -> Coroutine B) : A -> M B :=
  fun a => run_until_complete (f a).

(** ** Requests, call contexts and service instances *)

(** The inbound request message, by the fields it carries. *)
Abbreviation Request := (gmap string value).

(** [hasattr(request, name)] *)
Definition hasattr (r : Request) (name : string) : bool :=
  bool_decide (is_Some (r !! name)).

(** [getattr(request, name)] *)
Definition getattr (r : Request) (name : string) : M value :=
  match r !! name with
  | Some v => ret v
  | None => raise (Exn AttributeError name)
  end.

(** The call context the dispatch layer supplies. *)
Record GrpcContext := {
  peer : string;
  invocation_metadata : list (string * string)
}.

(** A paginator instance: the class it was built from and its identity. *)
Record Paginator := {
  pg_class : string;
  pg_oid : nat
}.

(** A service instance: the class-level declarations of [GenericService]
    that are plain data ([queryset], [lookup_field], [lookup_request_field],
    [pagination_class], the class's [__name__]), the per-call state
    ([request], [context], [action]) and the [_paginator] attribute, which is
    [None] while the instance has no such attribute. *)
Record Service := {
  class_name : string;
  queryset : option Collection;
  lookup_field : option string;
  lookup_request_field : option string;
  pagination_class : option string;
  request : Request;
  context : GrpcContext;
  action : string;
  _paginator : option (option Paginator)
}.

(** [self._paginator = p] *)
Definition set_paginator (self : Service) (p : option Paginator) : Service :=
  {| class_name := class_name self;
     queryset := queryset self;
     lookup_field := lookup_field self;
     lookup_request_field := lookup_request_field self;
     pagination_class := pagination_class self;
     request := request self;
     context := context self;
     action := action self;
     _paginator := Some p |}.

(** A filter backend class, by its [filter_queryset] method: a plain function
    or an [async def].  Either way the method maps the call context, a
    collection and the service to a collection, or raises. *)
Inductive FilterBackend :=
| SyncBackend (f : GrpcContext -> Collection -> Service -> outcome Collection)
| AsyncBackend (f : GrpcContext -> Collection -> Service -> outcome Collection).

(** [asyncio.iscoroutinefunction(backend().filter_queryset)] *)
Definition iscoroutinefunction (b : FilterBackend) : bool :=
  match b with
  | SyncBackend _ => false
  | AsyncBackend _ => true
  end.

(** The method's function, whichever way it is declared. *)
Definition backend_fn (b : FilterBackend)
  : GrpcContext -> Collection -> Service -> outcome Collection :=
  match b with
  | SyncBackend f => f
  | AsyncBackend f => f
  end.

(** The entries of a serializer context and the keyword arguments of a
    serializer construction. *)
Inductive CtxVal :=
| CtxRequest (r : Request)
| CtxContext (c : GrpcContext)
| CtxService (s : Service)
| CtxValue (v : value).

Inductive KwArg :=
| KwDict (d : gmap string CtxVal)
| KwValue (v : value)
| KwEntity (e : Entity)
| KwBool (b : bool).

(** [kwargs.setdefault(key, default)]: the mapping afterwards. *)
Definition setdefault (kwargs : gmap string KwArg) (key : string) (default : KwArg)
  : gmap string KwArg :=
  match kwargs !! key with
  | Some _ => kwargs
  | None => <[key := default]> kwargs
  end.

(** A page of results. *)
Abbreviation Page := (list Entity).

(** ** The collaborators, as the libraries document them

    These are used to run the methods on concrete services; the methods
    themselves are stated over arbitrary collaborators. *)

Module Django.

(** [Model._meta.get_field(name)] *)
Definition get_field (m : Model) (name : string) : option Field :=
  List.find (fun f => String.eqb (field_name f) name) (model_fields m).

(** Decimal text of an integer field's value, [None] when the text is no
    number. *)
Definition parse_int (s : string) : option Z :=
  Z.of_int <$> DecimalString.NilZero.int_of_string s.

(** [Field.get_prep_value]: the lookup value as the field stores it.  An
    integer field refuses text that is no number with a [ValueError]. *)
Definition get_prep_value (f : Field) (v : value) : outcome value :=
  match field_kind f, v with
  | IntegerField, VInt z => Return (VInt z)
  | IntegerField, VStr s =>
      match parse_int s with
      | Some z => Return (VInt z)
      | None =>
          Raise (Exn ValueError
                   ("Field '" ++ field_name f ++ "' expected a number but got '"
                    ++ s ++ "'."))
      end
  | CharField, v => Return (VStr (str v))
  end.

(** [QuerySet.get] with the one keyword [name = v]: the row whose field
    [name] is [v].
    No row raises the model's [DoesNotExist], several rows raise
    [MultipleObjectsReturned], an unknown field name raises [FieldError]. *)
Definition QuerySet_get (q : QuerySet) (name : string) (v : value) : outcome Entity :=
  match get_field (model q) name with
  | None =>
      Raise (Exn FieldError ("Cannot resolve keyword '" ++ name ++ "' into field."))
  | Some f =>
      match get_prep_value f v with
      | Raise e => Raise e
      | Return v' =>
          match List.filter (fun e => bool_decide (attrs e !! name = Some v')) (rows q) with
          | [] =>
              Raise (Exn DoesNotExist
                       (model_name (model q) ++ " matching query does not exist."))
          | [e] => Return e
          | (_ :: _ :: _) as found =>
              Raise (Exn MultipleObjectsReturned
                       ("get() returned more than one " ++ model_name (model q)
                        ++ " -- it returned "
                        ++ (if (List.length found <? 21)%nat then pretty (List.length found)
                            else "more than 20")
                        ++ "!"))
          end
      end
  end.

(** [django.shortcuts.get_object_or_404] with the one keyword [name = v]:
    [get], with the
    model's [DoesNotExist] turned into [Http404]; every other exception of
    [get], [MultipleObjectsReturned] included, passes through.  A first
    argument without a [get] method is a [ValueError]. *)
Definition get_object_or_404 (klass : Collection) (name : string) (v : value)
  : outcome Entity :=
  match klass with
  | CIterable _ _ =>
      Raise (Exn ValueError
               "First argument to get_object_or_404() must be a Model, Manager, or QuerySet, not 'list'.")
  | CQuerySet q =>
      match QuerySet_get q name v with
      | Return e => Return e
      | Raise e =>
          if bool_decide (exn_cls e = DoesNotExist)
          then Raise (Exn Http404 ("No " ++ model_name (model q) ++ " matches the given query."))
          else Raise e
      end
  end.

End Django.

Module ModelMeta.

(** Modelled from the spec: [utils.model_meta.get_model_pk] is not among the
    sources; the spec has it yield the entity type's primary-key field. *)
Definition get_model_pk (m : Model) : outcome Field :=
  match List.find primary_key (model_fields m) with
  | Some f => Return f
  | None => Raise (Exn AttributeError ("'" ++ model_name m ++ "' has no primary key"))
  end.

End ModelMeta.

(** ** A small deployment, for running the methods *)

Module Demo.

Definition User : Model :=
  {| model_name := "User";
     model_fields :=
       [ {| field_name := "id"; primary_key := true; field_kind := IntegerField |};
         {| field_name := "name"; primary_key := false; field_kind := CharField |} ] |}.

Definition user (id : Z) (name : string) : Entity :=
  {| attrs := {[ "id" := VInt id; "name" := VStr name ]} |}.

(** The declared queryset: three users, two of them named bob. *)
Definition users : QuerySet :=
  {| qs_oid := 1; model := User; rows := [user 1 "ada"; user 2 "bob"; user 3 "bob"] |}.

(** The same users as a plain list. *)
Definition user_list : Collection :=
  CIterable 2 [user 1 "ada"; user 2 "bob"; user 3 "bob"].

Definition grpc_context : GrpcContext :=
  {| peer := "ipv4:127.0.0.1:50051"; invocation_metadata := [] |}.

(** A new instance of a [UserService] with the given declarations, called
    with the request [req]. *)
Definition service (declared : option Collection) (lf lrf pagination : option string)
  (req : Request) : Service :=
  {| class_name := "UserService";
     queryset := declared;
     lookup_field := lf;
     lookup_request_field := lrf;
     pagination_class := pagination;
     request := req;
     context := grpc_context;
     action := "Retrieve";
     _paginator := None |}.

(** [UserService] on the declared queryset, with no override. *)
Definition by_id (req : Request) : Service :=
  service (Some (CQuerySet users)) None None None req.

(** [UserService] with [lookup_field = "name"]. *)
Definition by_name (req : Request) : Service :=
  service (Some (CQuerySet users)) (Some "name") None None req.

(** [UserService] with [pagination_class = PageNumberPagination]. *)
Definition paginated : Service :=
  service (Some (CQuerySet users)) None None (Some "PageNumberPagination") ∅.

(** A world in which the objects 0 to 9 exist. *)
Definition world : World := {| next_oid := 10; paginators_built := [] |}.

(** The handle [get_queryset] derives from [users] in [world], and the world
    afterwards. *)
Definition users_handle : QuerySet :=
  {| qs_oid := 10; model := User; rows := [user 1 "ada"; user 2 "bob"; user 3 "bob"] |}.
Definition world_after : World := {| next_oid := 11; paginators_built := [] |}.

(** A permission check that lets every entity through. *)
Definition allow_any (_ : Service) (_ : Entity) : outcome unit := Return tt.

(** A serializer that records its construction. *)
Definition recorded : Type := list KwArg * gmap string KwArg.
Definition recording_serializer (args : list KwArg) (kwargs : gmap string KwArg)
  : outcome recorded := Return (args, kwargs).

(** A paginator whose page is the first two rows. *)
Definition first_two (_ : Paginator) (c : Collection) (_ : GrpcContext) (_ : Service)
  : outcome (option Page) :=
  match c with
  | CQuerySet q => Return (Some (take 2 (rows q)))
  | CIterable _ items => Return (Some (take 2 items))
  end.

(** A filter that appends a row tagged [t] to the collection. *)
Definition tagged (t : string) : Entity := {| attrs := {[ "tag" := VStr t ]} |}.
Definition append_tag (t : string) (_ : GrpcContext) (c : Collection) (_ : Service)
  : outcome Collection :=
  match c with
  | CQuerySet q =>
      Return (CQuerySet {| qs_oid := qs_oid q; model := model q;
                           rows := rows q ++ [tagged t] |})
  | CIterable oid items => Return (CIterable oid (items ++ [tagged t]))
  end.

(** The tags of a collection's rows, in order. *)
Definition tags (c : Collection) : list value :=
  omap (fun e => attrs e !! "tag")
    match c with
    | CQuerySet q => rows q
    | CIterable _ items => items
    end.

(** A permission check that refuses the entities named [n]. *)
Definition deny_named (n : string) (_ : Service) (obj : Entity) : outcome unit :=
  if bool_decide (attrs obj !! "name" = Some (VStr n))
  then Raise (Exn PermissionDenied "You do not have permission to perform this action.")
  else Return tt.

(** A filter backend that refuses to filter. *)
Definition refusing_filter (_ : GrpcContext) (_ : Collection) (_ : Service)
  : outcome Collection :=
  Raise (Exn ValidationError "Invalid filter.").


(** [UserService] on the plain list of users, with [lookup_field = "name"]. *)
Definition list_by_name (req : Request) : Service :=
  service (Some user_list) (Some "name") None None req.

End Demo.

(** ** GenericService

    The methods are those of [GenericService] itself: where a method calls
    [self.m()], it is this class's [m] that runs.  The warning that
    [filter_queryset] and [afilter_queryset] log for a subclass that
    overrides the method of the other mode only writes to the log and is
    left out. *)

(** [queryset.all()]: a new handle on the same rows. *)
Definition QuerySet_all (q : QuerySet) : M QuerySet :=
  let* oid := new_oid in
  ret {| qs_oid := oid; model := model q; rows := rows q |}.

(** [queryset.model]: only a [QuerySet] has the attribute. *)
Definition collection_model (c : Collection) : M Model :=
  match c with
  | CQuerySet q => ret (model q)
  | CIterable _ _ => raise (Exn AttributeError "'list' object has no attribute 'model'")
  end.

(** [pagination_class()]: a new paginator instance of the class. *)
Definition new_paginator (cls : string) : M Paginator :=
  fun w =>
    (Return {| pg_class := cls; pg_oid := next_oid w |},
     {| next_oid := S (next_oid w);
        paginators_built := paginators_built w ++ [next_oid w] |}).

(** The message of the [NotFound] that [get_object] raises. *)
Definition not_found_detail (m : Model) (lookup_value : value) : string :=
  model_name m ++ ": " ++ str lookup_value ++ " not found!".

(** The classes of [except (TypeError, ValueError, ValidationError, Http404)]. *)
Definition caught (c : exn_class) : bool :=
  match c with
  | TypeError | ValueError | ValidationError | Http404 => true
  | _ => false
  end.

Definition queryset_assertion (self : Service) : string :=
  "'" ++ class_name self ++ "' should either include a ``queryset`` attribute, "
  ++ "or override the ``get_queryset()`` method.".

Definition serializer_class_assertion (self : Service) : string :=
  "'" ++ class_name self ++ "' should either include a `serializer_class` attribute, "
  ++ "or override the `get_serializer_class()` method.".

Definition lookup_assertion (self : Service) (lookup_request_field : string) : string :=
  "Expected service " ++ class_name self
  ++ " to be called with request that has a field named "
  ++ dquote ++ lookup_request_field ++ dquote
  ++ ". Fix your request protocol definition, or set the "
  ++ "`.lookup_field` attribute on the service correctly.".

(** [get_queryset] *)
Definition get_queryset (self : Service) : M Collection :=
  match queryset self with
  | None => raise (Exn AssertionError (queryset_assertion self))
  | Some queryset =>
      match queryset with
      | CQuerySet q =>
          let* q' := QuerySet_all q in
          ret (CQuerySet q')
      | CIterable _ _ => ret queryset
      end
  end.

(** [get_serializer_context] *)
Definition get_serializer_context (self : Service) : gmap string CtxVal :=
  {[ "grpc_request" := CtxRequest (request self);
     "grpc_context" := CtxContext (context self);
     "service" := CtxService self ]}.

(** [paginator], the cached property: the value read and the instance
    afterwards. *)
Definition paginator (self : Service) : M (option Paginator * Service) :=
  match _paginator self with
  | None =>
      match pagination_class self with
      | None => ret (None, set_paginator self None)
      | Some cls =>
          let* p := new_paginator cls in
          ret (Some p, set_paginator self (Some p))
      end
  | Some p => ret (p, self)
  end.

(** Whether the [_paginator] attribute, when the instance has it, holds what
    [pagination_class] builds: [None] for no class, an instance of the class
    otherwise.  A new service instance has no such attribute. *)
Definition paginator_consistent (self : Service) : Prop :=
  match _paginator self with
  | None => True
  | Some p => pg_class <$> p = pagination_class self
  end.

(** Reading the [paginator] property [n] times in a row: the values read, in
    order, and the instance afterwards. *)
Fixpoint paginator_reads (n : nat) (self : Service)
  : M (list (option Paginator) * Service) :=
  match n with
  | O => ret ([], self)
  | S n' =>
      let* r := paginator self in
      let* rs := paginator_reads n' (snd r) in
      ret (fst r :: fst rs, snd rs)
  end.

(** The precedence the spec gives for a lookup name: the override when it is
    set, else the fallback. *)
Definition or_else (override : option string) (fallback : string) : string :=
  match override with
  | Some s => if String.eqb s "" then fallback else s
  | None => fallback
  end.

(** The filter chain as the spec words it: a left fold of the backends'
    functions over the collection, in declared order, each called with the
    call context, the collection so far and the service.  A backend that
    raises ends the chain. *)
Definition fold_filter_chain
  (fs : list (GrpcContext -> Collection -> Service -> outcome Collection))
  (ctx : GrpcContext) (self : Service) (queryset : Collection) : outcome Collection :=
  fold_left
    (fun acc f =>
       match acc with
       | Return qs => f ctx qs self
       | Raise e => Raise e
       end)
    fs (Return queryset).

Section GenericService.

(** [utils.model_meta.get_model_pk] *)
Variable get_model_pk : Model -> outcome Field.

(** [django.shortcuts.get_object_or_404], called with one keyword. *)
Variable get_object_or_404 : Collection -> string -> value -> outcome Entity.

(** The class attribute [filter_backends]. *)
Variable filter_backends : list FilterBackend.

(** [services.Service.check_object_permissions] and its coroutine form
    [acheck_object_permissions]. *)
Variable check_object_permissions : Service -> Entity -> outcome unit.
Variable acheck_object_permissions : Service -> Entity -> outcome unit.

(** The class attribute [serializer_class]: the constructor of the
    serializer, by positional and keyword arguments. *)
Variable Serializer : Type.
Variable serializer_class
  : option (list KwArg -> gmap string KwArg -> outcome Serializer).

(** The paginator's [paginate_queryset(queryset, context, view=...)]. *)
Variable paginator_paginate_queryset
  : Paginator -> Collection -> GrpcContext -> Service -> outcome (option Page).

(** [get_serializer_class] *)
Definition get_serializer_class (self : Service)
  : M (list KwArg -> gmap string KwArg -> outcome Serializer) :=
  match serializer_class with
  | None => raise (Exn AssertionError (serializer_class_assertion self))
  | Some cls => ret cls
  end.

(** [get_lookup_request_field] *)
Definition get_lookup_request_field (self : Service) (queryset : option Collection)
  : M string :=
  let* queryset :=
    match queryset with
    | None => get_queryset self
    | Some queryset => ret queryset
    end in
  let* lookup_field :=
    py_or (lookup_field self)
      (let* m := collection_model queryset in
       let* pk := call (get_model_pk m) in
       ret (field_name pk)) in
  let* lookup_request_field :=
    py_or (lookup_request_field self) (ret lookup_field) in
  ret lookup_request_field.

(** The loop of [filter_queryset] over the backends still to run. *)
Fixpoint filter_queryset_from (self : Service) (backends : list FilterBackend)
  (queryset : Collection) : M Collection :=
  match backends with
  | [] => ret queryset
  | backend :: backends' =>
      let* queryset' :=
        if iscoroutinefunction backend
        then
          async_to_sync
            (fun '(ctx, qs, view) => Coro (call (backend_fn backend ctx qs view)))
            (context self, queryset, self)
        else call (backend_fn backend (context self) queryset self) in
      filter_queryset_from self backends' queryset'
  end.

(** [filter_queryset] *)
Definition filter_queryset (self : Service) (queryset : Collection) : M Collection :=
  filter_queryset_from self filter_backends queryset.

(** The loop of [afilter_queryset] over the backends still to run. *)
Fixpoint afilter_queryset_from (self : Service) (backends : list FilterBackend)
  (queryset : Collection) : M Collection :=
  match backends with
  | [] => ret queryset
  | backend :: backends' =>
      let* queryset' :=
        if iscoroutinefunction backend
        then await (Coro (call (backend_fn backend (context self) queryset self)))
        else
          await
            (sync_to_async
               (fun '(ctx, qs, view) => call (backend_fn backend ctx qs view))
               (context self, queryset, self)) in
      afilter_queryset_from self backends' queryset'
  end.

(** [afilter_queryset] *)
Definition afilter_queryset (self : Service) (queryset : Collection)
  : Coroutine Collection :=
  Coro (afilter_queryset_from self filter_backends queryset).

(** The [except] clause of [get_object] and [aget_object]. *)
Definition except_not_found (queryset : Collection) (lookup_value : value)
  (e : exn) : M Entity :=
  if caught (exn_cls e)
  then
    let* m := collection_model queryset in
    raise (ExnFrom NotFound (not_found_detail m lookup_value) e)
  else raise e.

(** [get_object] *)
Definition get_object (self : Service) : M Entity :=
  let* queryset0 := get_queryset self in
  let* queryset := filter_queryset self queryset0 in
  let* lookup_request_field := get_lookup_request_field self (Some queryset) in
  let* _ := py_assert (hasattr (request self) lookup_request_field)
              (lookup_assertion self lookup_request_field) in
  let* lookup_value := getattr (request self) lookup_request_field in
  let* obj :=
    try_except
      (call (get_object_or_404 queryset lookup_request_field lookup_value))
      (except_not_found queryset lookup_value) in
  let* _ := call (check_object_permissions self obj) in
  ret obj.

(** [aget_object] *)
Definition aget_object (self : Service) : Coroutine Entity :=
  Coro (
    let* queryset0 := await (sync_to_async get_queryset self) in
    let* queryset := await (afilter_queryset self queryset0) in
    let* lookup_request_field := get_lookup_request_field self (Some queryset) in
    let* _ := py_assert (hasattr (request self) lookup_request_field)
                (lookup_assertion self lookup_request_field) in
    let* lookup_value := getattr (request self) lookup_request_field in
    let* obj :=
      try_except
        (await
           (sync_to_async
              (fun '(qs, name, v) => call (get_object_or_404 qs name v))
              (queryset, lookup_request_field, lookup_value)))
        (except_not_found queryset lookup_value) in
    let* _ := await (Coro (call (acheck_object_permissions self obj))) in
    ret obj).

(** [get_serializer] *)
Definition get_serializer (self : Service) (args : list KwArg)
  (kwargs : gmap string KwArg) : M Serializer :=
  let* serializer_class := get_serializer_class self in
  let kwargs := setdefault kwargs "context" (KwDict (get_serializer_context self)) in
  call (serializer_class args kwargs).

(** [aget_serializer] *)
Definition aget_serializer (self : Service) (args : list KwArg)
  (kwargs : gmap string KwArg) : Coroutine Serializer :=
  Coro (
    let* serializer_class := get_serializer_class self in
    let kwargs := setdefault kwargs "context" (KwDict (get_serializer_context self)) in
    await (sync_to_async (fun '(a, k) => call (serializer_class a k)) (args, kwargs))).

(** [paginate_queryset]: the page and the instance afterwards. *)
Definition paginate_queryset (self : Service) (queryset : Collection)
  : M (option Page * Service) :=
  let* r := paginator self in
  let '(p, self1) := r in
  match p with
  | None => ret (None, self1)
  | Some _ =>
      let* r2 := paginator self1 in
      let '(p2, self2) := r2 in
      match p2 with
      | None => raise (Exn AttributeError "'NoneType' object has no attribute 'paginate_queryset'")
      | Some pg =>
          let* page := call (paginator_paginate_queryset pg queryset (context self2) self2) in
          ret (page, self2)
      end
  end.


(** The steps [get_object] and [aget_object] have in common, by the
    permission check they end with. *)
Definition resolve_object (check : Service -> Entity -> outcome unit) (self : Service)
  : M Entity :=
  let* queryset0 := get_queryset self in
  let* queryset := filter_queryset self queryset0 in
  let* lookup_request_field := get_lookup_request_field self (Some queryset) in
  let* _ := py_assert (hasattr (request self) lookup_request_field)
              (lookup_assertion self lookup_request_field) in
  let* lookup_value := getattr (request self) lookup_request_field in
  let* obj :=
    try_except
      (call (get_object_or_404 queryset lookup_request_field lookup_value))
      (except_not_found queryset lookup_value) in
  let* _ := call (check self obj) in
  ret obj.

(** The lookup of a call is resolved: [get_queryset] and the filter chain
    give the collection [c], the lookup name is [name], and the request
    carries the value [v] under that name. *)
Definition lookup_resolved (self : Service) (w : World) (c : Collection)
  (name : string) (v : value) : Prop :=
  exists c0 w1,
    get_queryset self w = (Return c0, w1) /\
    filter_queryset self c0 w1 = (Return c, w1) /\
    get_lookup_request_field self (Some c) w1 = (Return name, w1) /\
    request self !! name = Some v.

(** * Properties *)

(** ** The monad *)

Lemma bind_return {A B} (m : M A) (k : A -> M B) (w w' : World) (a : A) :
  m w = (Return a, w') -> bind m k w = k a w'.
Proof. intros H. unfold bind. now rewrite H. Qed.

Lemma bind_ret {A B} (a : A) (k : A -> M B) : bind (ret a) k = k a.
Proof. reflexivity. Qed.

Lemma bind_ext {A B} (m1 m2 : M A) (k1 k2 : A -> M B) (w : World) :
  m1 w = m2 w -> (forall a w', k1 a w' = k2 a w') -> bind m1 k1 w = bind m2 k2 w.
Proof.
  intros Hm Hk. unfold bind. rewrite Hm.
  destruct (m2 w) as [[a|e] w']; [apply Hk|reflexivity].
Qed.

Lemma call_Return {A} (a : A) : call (Return a) = ret a.
Proof. reflexivity. Qed.

Lemma call_Raise {A} (e : exn) : call (@Raise A e) = raise e.
Proof. reflexivity. Qed.

Lemma bind_raise_l {A B} (e : exn) (k : A -> M B) : bind (raise e) k = raise e.
Proof. reflexivity. Qed.

Lemma bind_call {A B} (r : outcome A) (k : A -> M B) (w : World) :
  bind (call r) k w =
  match r with
  | Return a => k a w
  | Raise e => (Raise e, w)
  end.
Proof. unfold bind, call. now destruct r. Qed.

Lemma truthy_Some (o : option string) :
  truthy o = true -> exists s, o = Some s /\ s <> "".
Proof.
  destruct o as [s|]; simpl; [|discriminate].
  intros H. exists s. split; [reflexivity|].
  intros ->. discriminate.
Qed.

Lemma py_or_true (a : option string) (b : M string) (s : string) :
  a = Some s -> s <> "" -> py_or a b = ret s.
Proof.
  intros -> Hs. unfold py_or, truthy.
  destruct (String.eqb_spec s ""); [contradiction|reflexivity].
Qed.

Lemma py_or_false (a : option string) (b : M string) :
  truthy a = false -> py_or a b = b.
Proof. intros H. unfold py_or. destruct a; [now rewrite H|reflexivity]. Qed.

Lemma string_app_assoc (a b c : string) : (a ++ b) ++ c = a ++ b ++ c.
Proof.
  induction a as [|x a IH]; [reflexivity|].
  change (String x ((a ++ b) ++ c) = String x (a ++ b ++ c)).
  now rewrite IH.
Qed.

Lemma contains_prefix (a b : string) : contains a (a ++ b).
Proof. exists "", b. reflexivity. Qed.

(** ** get_queryset *)

Lemma get_queryset_undeclared (self : Service) (w : World) :
  queryset self = None ->
  get_queryset self w = (Raise (Exn AssertionError (queryset_assertion self)), w).
Proof. intros H. unfold get_queryset. now rewrite H. Qed.

Lemma get_queryset_QuerySet (self : Service) (q : QuerySet) (w : World) :
  queryset self = Some (CQuerySet q) ->
  get_queryset self w =
  (Return (CQuerySet {| qs_oid := next_oid w; model := model q; rows := rows q |}),
   {| next_oid := S (next_oid w); paginators_built := paginators_built w |}).
Proof. intros H. unfold get_queryset. now rewrite H. Qed.

Lemma get_queryset_iterable (self : Service) (oid : nat) (items : list Entity) (w : World) :
  queryset self = Some (CIterable oid items) ->
  get_queryset self w = (Return (CIterable oid items), w).
Proof. intros H. unfold get_queryset. now rewrite H. Qed.

(** C7: [get_queryset] raises (an [AssertionError], and nothing else) exactly
    when the service declares no [queryset]; and for a declared [QuerySet]
    handle [q], every call returns a new handle on the same model and rows:
    its identity is the one the world allocates next, so it differs from the
    declared handle's (and from any object that exists at the call), and two
    successive calls return two different handles. *)
Theorem get_queryset_fresh_per_call (self : Service) (w : World) :
  ((exists e, fst (get_queryset self w) = Raise e) <-> queryset self = None) /\
  (queryset self = None ->
   get_queryset self w = (Raise (Exn AssertionError (queryset_assertion self)), w)) /\
  (forall q, queryset self = Some (CQuerySet q) -> qs_oid q < next_oid w ->
     exists q1 q2 w1 w2,
       get_queryset self w = (Return (CQuerySet q1), w1) /\
       get_queryset self w1 = (Return (CQuerySet q2), w2) /\
       qs_oid q1 = next_oid w /\ qs_oid q2 = next_oid w1 /\
       qs_oid q1 <> qs_oid q /\ qs_oid q2 <> qs_oid q /\ qs_oid q1 <> qs_oid q2 /\
       model q1 = model q /\ rows q1 = rows q /\
       model q2 = model q /\ rows q2 = rows q).
Proof.
  split; [|split].
  - split.
    + intros [e He]. destruct (queryset self) as [[q|oid items]|] eqn:Hq; [| |reflexivity].
      * rewrite (get_queryset_QuerySet self q w Hq) in He. discriminate.
      * rewrite (get_queryset_iterable self oid items w Hq) in He. discriminate.
    + intros Hq. rewrite (get_queryset_undeclared self w Hq). eauto.
  - apply get_queryset_undeclared.
  - intros q Hq Hlt.
    pose (w1 := {| next_oid := S (next_oid w); paginators_built := paginators_built w |}).
    exists {| qs_oid := next_oid w; model := model q; rows := rows q |},
           {| qs_oid := next_oid w1; model := model q; rows := rows q |},
           w1,
           {| next_oid := S (next_oid w1); paginators_built := paginators_built w1 |}.
    rewrite (get_queryset_QuerySet self q w Hq).
    rewrite (get_queryset_QuerySet self q w1 Hq).
    simpl. repeat split; lia.
Qed.

(** C10: for a declared collection that is no [QuerySet] (a plain list, say),
    [get_queryset] returns the declared object itself, at any call: the same
    identity and items, and nothing is allocated. *)
Theorem get_queryset_iterable_same_object
  (self : Service) (oid : nat) (items : list Entity) (w w' : World) :
  queryset self = Some (CIterable oid items) ->
  get_queryset self w = (Return (CIterable oid items), w) /\
  get_queryset self w' = (Return (CIterable oid items), w') /\
  (forall c, fst (get_queryset self w) = Return c ->
             isinstance_QuerySet c = false /\ collection_oid c = oid).
Proof.
  intros Hq. rewrite !(get_queryset_iterable self oid items _ Hq).
  split; [reflexivity|]. split; [reflexivity|].
  intros c Hc. simpl in Hc. injection Hc as <-. split; reflexivity.
Qed.

(** ** get_lookup_request_field *)

Lemma or_else_truthy (o : option string) (s fallback : string) :
  o = Some s -> s <> "" -> or_else o fallback = s.
Proof.
  intros -> Hs. unfold or_else.
  destruct (String.eqb_spec s ""); [contradiction|reflexivity].
Qed.

Lemma py_or_ret (a : option string) (fallback : string) (w : World) :
  py_or a (ret fallback) w = (Return (or_else a fallback), w).
Proof.
  unfold py_or, or_else, truthy.
  destruct a as [s|]; [|reflexivity].
  now destruct (String.eqb s "").
Qed.

(** C3: [get_lookup_request_field] on a collection.  With a lookup-field
    override that is set (a non-empty string: [or] takes [None] and the empty
    string alike), the result is the request-field override when that is set
    and the lookup-field override otherwise, for every collection and
    whatever the primary-key lookup would answer: it is not consulted.
    Without one, the primary-key field of the queryset's model stands in for
    it: the result is the request-field override when set, else that field's
    name; and a primary-key lookup that raises makes the call raise. *)
Theorem get_lookup_request_field_precedence (self : Service) (w : World) :
  (forall lf c, lookup_field self = Some lf -> lf <> "" ->
     get_lookup_request_field self (Some c) w =
     (Return (or_else (lookup_request_field self) lf), w)) /\
  (forall q pk, truthy (lookup_field self) = false ->
     get_model_pk (model q) = Return pk ->
     get_lookup_request_field self (Some (CQuerySet q)) w =
     (Return (or_else (lookup_request_field self) (field_name pk)), w)) /\
  (forall q pk, get_model_pk (model q) = Return pk ->
     get_lookup_request_field self (Some (CQuerySet q)) w =
     (Return (or_else (lookup_request_field self)
                (or_else (lookup_field self) (field_name pk))), w)) /\
  (forall q e, truthy (lookup_field self) = false ->
     get_model_pk (model q) = Raise e ->
     get_lookup_request_field self (Some (CQuerySet q)) w = (Raise e, w)).
Proof.
  assert (Hset : forall lf c, lookup_field self = Some lf -> lf <> "" ->
     get_lookup_request_field self (Some c) w =
     (Return (or_else (lookup_request_field self) lf), w)).
  { intros lf c Hlf Hne. unfold get_lookup_request_field.
    rewrite bind_ret, (py_or_true _ _ lf Hlf Hne), bind_ret.
    unfold bind. now rewrite py_or_ret. }
  assert (Hunset : forall q pk, truthy (lookup_field self) = false ->
     get_model_pk (model q) = Return pk ->
     get_lookup_request_field self (Some (CQuerySet q)) w =
     (Return (or_else (lookup_request_field self) (field_name pk)), w)).
  { intros q pk Hlf Hpk. unfold get_lookup_request_field.
    rewrite bind_ret, (py_or_false _ _ Hlf). simpl.
    rewrite bind_ret, Hpk, call_Return, !bind_ret.
    unfold bind. now rewrite py_or_ret. }
  split; [exact Hset|]. split; [exact Hunset|]. split.
  - intros q pk Hpk.
    destruct (truthy (lookup_field self)) eqn:Hlf.
    + destruct (truthy_Some _ Hlf) as (lf & Heq & Hne).
      rewrite (Hset lf _ Heq Hne).
      now rewrite (or_else_truthy _ lf (field_name pk) Heq Hne).
    + rewrite (Hunset q pk eq_refl Hpk).
      assert (or_else (lookup_field self) (field_name pk) = field_name pk) as ->; [|reflexivity].
      unfold or_else. unfold truthy in Hlf.
      destruct (lookup_field self) as [s|]; [|reflexivity].
      destruct (String.eqb s ""); [reflexivity|discriminate].
  - intros q e Hlf Hpk. unfold get_lookup_request_field.
    rewrite bind_ret, (py_or_false _ _ Hlf). simpl.
    now rewrite bind_ret, Hpk, call_Raise, !bind_raise_l.
Qed.

(** ** filter_queryset and afilter_queryset *)

Lemma fold_filter_chain_raise fs ctx self (e : exn) :
  fold_left
    (fun acc (f : GrpcContext -> Collection -> Service -> outcome Collection) =>
       match acc with
       | Return qs => f ctx qs self
       | Raise e' => Raise e'
       end)
    fs (Raise e) = Raise e.
Proof. induction fs as [|f fs IH]; simpl; [reflexivity|exact IH]. Qed.

Lemma fold_filter_chain_cons f fs ctx self c :
  fold_filter_chain (f :: fs) ctx self c =
  match f ctx c self with
  | Return c' => fold_filter_chain fs ctx self c'
  | Raise e => Raise e
  end.
Proof.
  unfold fold_filter_chain. simpl.
  destruct (f ctx c self); [reflexivity|apply fold_filter_chain_raise].
Qed.

Lemma fold_filter_chain_app fs1 fs2 ctx self c :
  fold_filter_chain (fs1 ++ fs2)%list ctx self c =
  match fold_filter_chain fs1 ctx self c with
  | Return c' => fold_filter_chain fs2 ctx self c'
  | Raise e => Raise e
  end.
Proof.
  revert c. induction fs1 as [|f fs1 IH]; intros c; [reflexivity|].
  change ((f :: fs1) ++ fs2)%list with (f :: (fs1 ++ fs2))%list.
  rewrite !fold_filter_chain_cons.
  destruct (f ctx c self); [apply IH|reflexivity].
Qed.

Lemma filter_queryset_from_fold (self : Service) (bs : list FilterBackend)
  (c : Collection) (w : World) :
  filter_queryset_from self bs c w =
  (fold_filter_chain (map backend_fn bs) (context self) self c, w).
Proof.
  revert c. induction bs as [|b bs IH]; intros c; [reflexivity|].
  change (map backend_fn (b :: bs)) with (backend_fn b :: map backend_fn bs).
  rewrite fold_filter_chain_cons. simpl.
  destruct (iscoroutinefunction b); unfold bind; simpl; unfold call;
    (destruct (backend_fn b (context self) c self); [apply IH|reflexivity]).
Qed.

Lemma afilter_queryset_from_fold (self : Service) (bs : list FilterBackend)
  (c : Collection) (w : World) :
  afilter_queryset_from self bs c w =
  (fold_filter_chain (map backend_fn bs) (context self) self c, w).
Proof.
  revert c. induction bs as [|b bs IH]; intros c; [reflexivity|].
  change (map backend_fn (b :: bs)) with (backend_fn b :: map backend_fn bs).
  rewrite fold_filter_chain_cons. simpl.
  destruct (iscoroutinefunction b); unfold bind; simpl; unfold call;
    (destruct (backend_fn b (context self) c self); [apply IH|reflexivity]).
Qed.

(** C5: [filter_queryset] and [afilter_queryset] (run to completion) both
    compute the left fold of the backends' [filter_queryset] functions over
    the collection, in the order of [filter_backends]: each backend is
    called with the service's call context, the collection the previous one
    returned and the service.  The fold reads the backends' functions only,
    so the result is the same whichever of them are coroutine functions; a
    chain of two lists of backends is the second chain run on the first
    one's result. *)
Theorem filter_queryset_folds_in_order (self : Service) (queryset : Collection)
  (w : World) :
  filter_queryset self queryset w =
    (fold_filter_chain (map backend_fn filter_backends) (context self) self queryset, w) /\
  run_until_complete (afilter_queryset self queryset) w =
    (fold_filter_chain (map backend_fn filter_backends) (context self) self queryset, w) /\
  (forall bs1 bs2, fold_filter_chain (map backend_fn (bs1 ++ bs2)%list) (context self) self queryset =
     match fold_filter_chain (map backend_fn bs1) (context self) self queryset with
     | Return qs => fold_filter_chain (map backend_fn bs2) (context self) self qs
     | Raise e => Raise e
     end).
Proof.
  split; [|split].
  - apply filter_queryset_from_fold.
  - apply afilter_queryset_from_fold.
  - intros bs1 bs2. rewrite map_app. apply fold_filter_chain_app.
Qed.

(** ** get_object and aget_object *)

Lemma hasattr_None (r : Request) (name : string) :
  r !! name = None -> hasattr r name = false.
Proof.
  intros H. unfold hasattr. apply bool_decide_eq_false.
  rewrite H. intros [v Hv]. discriminate.
Qed.

Lemma hasattr_Some (r : Request) (name : string) (v : value) :
  r !! name = Some v -> hasattr r name = true.
Proof. intros H. unfold hasattr. apply bool_decide_eq_true. rewrite H. eauto. Qed.

Lemma getattr_Some (r : Request) (name : string) (v : value) :
  r !! name = Some v -> getattr r name = ret v.
Proof. intros H. unfold getattr. now rewrite H. Qed.

Lemma afilter_queryset_filter_queryset (self : Service) (c : Collection) (w : World) :
  await (afilter_queryset self c) w = filter_queryset self c w.
Proof.
  unfold afilter_queryset, filter_queryset. simpl.
  now rewrite afilter_queryset_from_fold, filter_queryset_from_fold.
Qed.

(** The blocking method, once the collection is filtered and the lookup name
    resolved. *)
Lemma get_object_resolved (self : Service) (w w1 w2 w3 : World)
  (c0 c : Collection) (name : string) :
  get_queryset self w = (Return c0, w1) ->
  filter_queryset self c0 w1 = (Return c, w2) ->
  get_lookup_request_field self (Some c) w2 = (Return name, w3) ->
  get_object self w =
  (let* _ := py_assert (hasattr (request self) name) (lookup_assertion self name) in
   let* lookup_value := getattr (request self) name in
   let* obj :=
     try_except (call (get_object_or_404 c name lookup_value))
       (except_not_found c lookup_value) in
   let* _ := call (check_object_permissions self obj) in
   ret obj) w3.
Proof.
  intros H0 H1 H2. unfold get_object.
  rewrite (bind_return _ _ w w1 c0 H0).
  rewrite (bind_return _ _ w1 w2 c H1).
  now rewrite (bind_return _ _ w2 w3 name H2).
Qed.

(** The coroutine, likewise. *)
Lemma aget_object_resolved (self : Service) (w w1 w2 w3 : World)
  (c0 c : Collection) (name : string) :
  get_queryset self w = (Return c0, w1) ->
  filter_queryset self c0 w1 = (Return c, w2) ->
  get_lookup_request_field self (Some c) w2 = (Return name, w3) ->
  run_until_complete (aget_object self) w =
  (let* _ := py_assert (hasattr (request self) name) (lookup_assertion self name) in
   let* lookup_value := getattr (request self) name in
   let* obj :=
     try_except (call (get_object_or_404 c name lookup_value))
       (except_not_found c lookup_value) in
   let* _ := call (acheck_object_permissions self obj) in
   ret obj) w3.
Proof.
  intros H0 H1 H2. unfold run_until_complete, aget_object, await at 1.
  assert (Ha : await (sync_to_async get_queryset self) w = (Return c0, w1)) by exact H0.
  rewrite (bind_return _ _ w w1 c0 Ha).
  rewrite <- afilter_queryset_filter_queryset in H1.
  rewrite (bind_return _ _ w1 w2 c H1).
  now rewrite (bind_return _ _ w2 w3 name H2).
Qed.

(** C4: when the collection is filtered and the lookup name resolved, and
    the request has no attribute of that name, [get_object] and
    [aget_object] raise the [AssertionError] of the lookup assertion.  This
    holds for every [get_object_or_404]: the query is not reached, so the
    exception is never a [NotFound]. *)
Theorem get_object_missing_lookup_attribute (self : Service) (w w1 w2 w3 : World)
  (c0 c : Collection) (name : string) :
  get_queryset self w = (Return c0, w1) ->
  filter_queryset self c0 w1 = (Return c, w2) ->
  get_lookup_request_field self (Some c) w2 = (Return name, w3) ->
  request self !! name = None ->
  get_object self w = (Raise (Exn AssertionError (lookup_assertion self name)), w3) /\
  run_until_complete (aget_object self) w =
    (Raise (Exn AssertionError (lookup_assertion self name)), w3) /\
  (forall e, fst (get_object self w) = Raise e \/
             fst (run_until_complete (aget_object self) w) = Raise e ->
             exn_cls e = AssertionError /\ exn_cls e <> NotFound) /\
  (forall obj, fst (get_object self w) <> Return obj /\
               fst (run_until_complete (aget_object self) w) <> Return obj).
Proof.
  intros H0 H1 H2 Hreq.
  rewrite (get_object_resolved self w w1 w2 w3 c0 c name H0 H1 H2).
  rewrite (aget_object_resolved self w w1 w2 w3 c0 c name H0 H1 H2).
  rewrite (hasattr_None _ _ Hreq). simpl.
  rewrite !bind_raise_l. unfold raise. simpl.
  split; [reflexivity|]. split; [reflexivity|]. split.
  - intros e [He|He]; injection He as <-; split; [reflexivity|discriminate |reflexivity|discriminate].
  - intros obj. split; discriminate.
Qed.

Lemma not_found_detail_contains (m : Model) (v : value) :
  contains (model_name m) (not_found_detail m v) /\
  contains (str v) (not_found_detail m v).
Proof.
  unfold not_found_detail. split.
  - apply contains_prefix.
  - exists (model_name m ++ ": "), " not found!".
    now rewrite string_app_assoc.
Qed.

(** C1, as the code has it: when the collection is filtered to a queryset
    and the lookup name resolved to an attribute of the request, and
    [get_object_or_404] raises an exception [e], then
    - for [e] of class [TypeError], [ValueError], [ValidationError] or
      [Http404], [get_object] and [aget_object] raise one [NotFound], whose
      message is the model's name, a colon, the text of the lookup value and
      "not found!", with [e] kept as its cause: what the caller catches has
      the class [NotFound] and a message that contains the model's name and
      the value;
    - for [e] of any other class, they raise [e] itself. *)
Theorem get_object_not_found_translation (self : Service) (w w1 w2 w3 : World)
  (c0 : Collection) (q : QuerySet) (name : string) (v : value) (e : exn) :
  get_queryset self w = (Return c0, w1) ->
  filter_queryset self c0 w1 = (Return (CQuerySet q), w2) ->
  get_lookup_request_field self (Some (CQuerySet q)) w2 = (Return name, w3) ->
  request self !! name = Some v ->
  get_object_or_404 (CQuerySet q) name v = Raise e ->
  (caught (exn_cls e) = true ->
     get_object self w =
       (Raise (ExnFrom NotFound (not_found_detail (model q) v) e), w3) /\
     run_until_complete (aget_object self) w =
       (Raise (ExnFrom NotFound (not_found_detail (model q) v) e), w3) /\
     (forall e', fst (get_object self w) = Raise e' \/
                 fst (run_until_complete (aget_object self) w) = Raise e' ->
        exn_cls e' = NotFound /\
        contains (model_name (model q)) (exn_msg e') /\
        contains (str v) (exn_msg e'))) /\
  (caught (exn_cls e) = false ->
     get_object self w = (Raise e, w3) /\
     run_until_complete (aget_object self) w = (Raise e, w3)).
Proof.
  intros H0 H1 H2 Hreq Hget.
  rewrite (get_object_resolved self w w1 w2 w3 c0 _ name H0 H1 H2).
  rewrite (aget_object_resolved self w w1 w2 w3 c0 _ name H0 H1 H2).
  rewrite (hasattr_Some _ _ _ Hreq), (getattr_Some _ _ _ Hreq). simpl.
  rewrite !bind_ret, Hget.
  unfold try_except, bind, call, except_not_found. simpl.
  split; intros Hc; rewrite Hc; simpl.
  - split; [reflexivity|]. split; [reflexivity|].
    intros e' [He'|He']; injection He' as <-;
      (split; [reflexivity|apply not_found_detail_contains]).
  - split; reflexivity.
Qed.

(** C2: when the permission check and its coroutine form answer alike on
    every entity, [get_object] and [aget_object] run to completion have the
    same result: the same entity or the same exception (for a [NotFound],
    the same message), and the same world afterwards. *)
Theorem get_object_aget_object_agree (self : Service) (w : World) :
  (forall obj, check_object_permissions self obj = acheck_object_permissions self obj) ->
  get_object self w = run_until_complete (aget_object self) w.
Proof.
  intros Hperm.
  unfold run_until_complete, aget_object, get_object, await at 1.
  apply bind_ext; [reflexivity|intros c0 w1].
  apply bind_ext; [symmetry; apply afilter_queryset_filter_queryset|intros c w2].
  apply bind_ext; [reflexivity|intros name w3].
  apply bind_ext; [reflexivity|intros _ w4].
  apply bind_ext; [reflexivity|intros v w5].
  apply bind_ext; [reflexivity|intros obj w6].
  apply bind_ext; [|reflexivity].
  simpl. now rewrite Hperm.
Qed.

(** ** get_serializer *)

Lemma get_serializer_context_dom (self : Service) :
  dom (get_serializer_context self) =
  ({[ "grpc_request"; "grpc_context"; "service" ]} : gset string).
Proof.
  unfold get_serializer_context.
  rewrite !dom_insert_L, dom_singleton_L. set_solver.
Qed.

Lemma get_serializer_context_size (self : Service) :
  size (get_serializer_context self) = 3.
Proof.
  unfold get_serializer_context.
  rewrite !map_size_insert_None, map_size_singleton; [reflexivity| |].
  - now rewrite lookup_singleton_ne.
  - rewrite lookup_insert_ne by discriminate. now rewrite lookup_singleton_ne.
Qed.

Lemma setdefault_absent (kwargs : gmap string KwArg) (key : string) (d : KwArg) :
  kwargs !! key = None -> setdefault kwargs key d = <[key := d]> kwargs.
Proof. intros H. unfold setdefault. now rewrite H. Qed.

(** C6: the serializer context has exactly the three keys [grpc_request],
    [grpc_context] and [service], bound to the request, the call context and
    the service instance; and when the caller passes no [context] keyword,
    [get_serializer] (and [aget_serializer]) construct the serializer with
    the caller's arguments and that mapping as [context]. *)
Theorem get_serializer_context_exactly_three (self : Service) (args : list KwArg)
  (kwargs : gmap string KwArg) (w : World) :
  kwargs !! "context" = None ->
  dom (get_serializer_context self) =
    ({[ "grpc_request"; "grpc_context"; "service" ]} : gset string) /\
  size (get_serializer_context self) = 3 /\
  get_serializer_context self !! "grpc_request" = Some (CtxRequest (request self)) /\
  get_serializer_context self !! "grpc_context" = Some (CtxContext (context self)) /\
  get_serializer_context self !! "service" = Some (CtxService self) /\
  (forall cls, serializer_class = Some cls ->
     get_serializer self args kwargs w =
       (cls args (<["context" := KwDict (get_serializer_context self)]> kwargs), w) /\
     run_until_complete (aget_serializer self args kwargs) w =
       (cls args (<["context" := KwDict (get_serializer_context self)]> kwargs), w)).
Proof.
  intros Hno.
  split; [apply get_serializer_context_dom|].
  split; [apply get_serializer_context_size|].
  split; [reflexivity|]. split; [reflexivity|]. split; [reflexivity|].
  intros cls Hcls.
  unfold run_until_complete, aget_serializer, get_serializer, get_serializer_class.
  rewrite Hcls, (setdefault_absent _ _ _ Hno). simpl.
  now rewrite !bind_ret.
Qed.

(** ** paginator and paginate_queryset *)

Lemma paginator_cached (self self1 : Service) (p : option Paginator) (w w1 : World) :
  paginator self w = (Return (p, self1), w1) ->
  forall w', paginator self1 w' = (Return (p, self1), w').
Proof.
  unfold paginator. intros H w'.
  destruct (_paginator self) as [p0|] eqn:Hslot.
  - injection H as <- <- <-. now rewrite Hslot.
  - destruct (pagination_class self) as [cls|]; injection H as <- <- <-; reflexivity.
Qed.

Lemma paginator_fresh_disabled (self : Service) (w : World) :
  _paginator self = None -> pagination_class self = None ->
  paginator self w = (Return (None, set_paginator self None), w).
Proof. intros H1 H2. unfold paginator. now rewrite H1, H2. Qed.

Lemma paginator_fresh_enabled (self : Service) (cls : string) (w : World) :
  _paginator self = None -> pagination_class self = Some cls ->
  paginator self w =
  (Return (Some {| pg_class := cls; pg_oid := next_oid w |},
           set_paginator self (Some {| pg_class := cls; pg_oid := next_oid w |})),
   {| next_oid := S (next_oid w);
      paginators_built := (paginators_built w ++ [next_oid w])%list |}).
Proof. intros H1 H2. unfold paginator. now rewrite H1, H2. Qed.

Lemma paginator_total (self : Service) (w : World) :
  exists p self1 w1,
    paginator self w = (Return (p, self1), w1) /\
    (self1 = self \/ self1 = set_paginator self p) /\
    (paginators_built w1 = paginators_built w \/
     paginators_built w1 = (paginators_built w ++ [next_oid w])%list).
Proof.
  unfold paginator.
  destruct (_paginator self) as [p0|]; [|destruct (pagination_class self) as [cls|]].
  - exists p0, self, w. auto.
  - eexists _, _, _. split; [reflexivity|]. simpl. auto.
  - eexists _, _, _. split; [reflexivity|]. simpl. auto.
Qed.

Lemma paginator_reads_cached (self1 : Service) (p : option Paginator) :
  (forall w', paginator self1 w' = (Return (p, self1), w')) ->
  forall n w', paginator_reads n self1 w' = (Return (repeat p n, self1), w').
Proof.
  intros Hc n. induction n as [|n IH]; intros w'; [reflexivity|].
  simpl. rewrite (bind_return _ _ _ _ _ (Hc w')). simpl.
  now rewrite (bind_return _ _ _ _ _ (IH w')).
Qed.

(** C9: reading [paginator] never raises.  The first read of an instance
    leaves the instance in a state in which every later read, in any world,
    returns the value of the first read and changes neither the instance nor
    the world: however often the property is read in a row, all reads
    return the first read's value and at most one paginator is constructed.
    A new instance reads [None] when [pagination_class] is [None] and
    otherwise constructs a paginator of the class; two new instances get
    paginators of different identity. *)
Theorem paginator_constructed_once (self : Service) (w : World) :
  exists p self1 w1,
    paginator self w = (Return (p, self1), w1) /\
    (forall w', paginator self1 w' = (Return (p, self1), w')) /\
    (forall n, paginator_reads (S n) self w = (Return (repeat p (S n), self1), w1)) /\
    (paginators_built w1 = paginators_built w \/
     paginators_built w1 = (paginators_built w ++ [next_oid w])%list) /\
    (_paginator self = None -> pagination_class self = None -> p = None /\ w1 = w) /\
    (forall cls, _paginator self = None -> pagination_class self = Some cls ->
       p = Some {| pg_class := cls; pg_oid := next_oid w |} /\
       paginators_built w1 = (paginators_built w ++ [next_oid w])%list) /\
    (forall other cls pg w2,
       _paginator self = None -> p = Some pg ->
       _paginator other = None -> pagination_class other = Some cls ->
       next_oid w1 <= next_oid w2 ->
       exists pg' other' w3,
         paginator other w2 = (Return (Some pg', other'), w3) /\
         pg_oid pg' <> pg_oid pg).
Proof.
  destruct (paginator_total self w) as (p & self1 & w1 & Hp & _ & Hbuilt).
  exists p, self1, w1.
  pose proof (paginator_cached _ _ _ _ _ Hp) as Hc.
  split; [exact Hp|]. split; [exact Hc|]. split; [|split; [exact Hbuilt|split; [|split]]].
  - intros n. change (paginator_reads (S n) self w) with
      ((let* r := paginator self in
        let* rs := paginator_reads n (snd r) in
        ret (fst r :: fst rs, snd rs)) w).
    rewrite (bind_return _ _ _ _ _ Hp). simpl.
    now rewrite (bind_return _ _ _ _ _ (paginator_reads_cached _ _ Hc n w1)).
  - intros Hslot Hcls. rewrite (paginator_fresh_disabled _ _ Hslot Hcls) in Hp.
    now injection Hp as <- <- <-.
  - intros cls Hslot Hcls. rewrite (paginator_fresh_enabled _ _ _ Hslot Hcls) in Hp.
    now injection Hp as <- <- <-.
  - intros other cls pg w2 Hslot Hpg Hslot' Hcls' Hle.
    rewrite (paginator_fresh_enabled _ _ _ Hslot' Hcls').
    eexists _, _, _. split; [reflexivity|]. simpl.
    unfold paginator in Hp. rewrite Hslot in Hp.
    destruct (pagination_class self) as [cls0|].
    + injection Hp as Hp1 Hp2 Hp3. subst p w1. injection Hpg as <-. simpl in *. lia.
    + injection Hp as Hp1 Hp2 Hp3. subst p. discriminate.
Qed.

Lemma paginator_consistent_disabled (self : Service) (w : World) :
  paginator_consistent self -> pagination_class self = None ->
  exists self', paginator self w = (Return (None, self'), w) /\
                _paginator self' = Some None.
Proof.
  unfold paginator_consistent, paginator. intros Hc Hcls. rewrite Hcls in *.
  destruct (_paginator self) as [[pg|]|] eqn:Hslot.
  - discriminate.
  - exists self. auto.
  - eexists. split; [reflexivity|reflexivity].
Qed.

Lemma paginator_consistent_enabled (self : Service) (cls : string) (w : World) :
  paginator_consistent self -> pagination_class self = Some cls ->
  exists pg self' w',
    paginator self w = (Return (Some pg, self'), w') /\
    pg_class pg = cls /\ _paginator self' = Some (Some pg) /\
    (self' = self \/ self' = set_paginator self (Some pg)).
Proof.
  unfold paginator_consistent, paginator. intros Hc Hcls. rewrite Hcls in *.
  destruct (_paginator self) as [[pg|]|] eqn:Hslot.
  - injection Hc as Hc. exists pg, self, w. auto.
  - discriminate.
  - eexists _, _, _. split; [reflexivity|]. simpl. auto.
Qed.

(** C8: on an instance whose [_paginator] attribute, if any, holds what
    [pagination_class] builds (a new instance has none), [paginate_queryset]
    - returns [None], and does not raise, for every collection when
      [pagination_class] is [None];
    - otherwise returns what the paginator's [paginate_queryset] returns (or
      raises what it raises) for the collection, the service's call context
      and the service instance, the paginator being the instance's cached
      one, of the configured class. *)
Theorem paginate_queryset_none_or_delegates (self : Service) (queryset : Collection)
  (w : World) :
  paginator_consistent self ->
  (pagination_class self = None ->
     exists self',
       paginate_queryset self queryset w = (Return (None, self'), w) /\
       _paginator self' = Some None) /\
  (forall cls, pagination_class self = Some cls ->
     exists pg self' w',
       paginator self w = (Return (Some pg, self'), w') /\
       pg_class pg = cls /\
       (self' = self \/ self' = set_paginator self (Some pg)) /\
       paginate_queryset self queryset w =
         (match paginator_paginate_queryset pg queryset (context self) self' with
          | Return page => Return (page, self')
          | Raise e => Raise e
          end, w')).
Proof.
  intros Hc. split.
  - intros Hcls.
    destruct (paginator_consistent_disabled self w Hc Hcls) as (self' & Hp & Hslot).
    exists self'. split; [|exact Hslot].
    unfold paginate_queryset. now rewrite (bind_return _ _ _ _ _ Hp).
  - intros cls Hcls.
    destruct (paginator_consistent_enabled self cls w Hc Hcls)
      as (pg & self' & w' & Hp & Hpg & Hslot & Hself).
    exists pg, self', w'. split; [exact Hp|]. split; [exact Hpg|]. split; [exact Hself|].
    unfold paginate_queryset. rewrite (bind_return _ _ _ _ _ Hp).
    rewrite (bind_return _ _ _ _ _ (paginator_cached _ _ _ _ _ Hp w')).
    assert (Hctx : context self' = context self).
    { destruct Hself as [->| ->]; reflexivity. }
    rewrite Hctx, bind_call.
    now destruct (paginator_paginate_queryset pg queryset (context self) self').
Qed.

(** * Further properties of the methods *)

(** ** What get_object and aget_object share *)

Lemma get_object_resolve_object (self : Service) (w : World) :
  get_object self w = resolve_object check_object_permissions self w.
Proof. reflexivity. Qed.

Lemma aget_object_resolve_object (self : Service) (w : World) :
  run_until_complete (aget_object self) w =
  resolve_object acheck_object_permissions self w.
Proof.
  unfold run_until_complete, aget_object, resolve_object, await at 1.
  apply bind_ext; [reflexivity|intros c0 w1].
  apply bind_ext; [apply afilter_queryset_filter_queryset|intros c w2].
  reflexivity.
Qed.

Lemma filter_queryset_world (self : Service) (c : Collection) (w : World) :
  snd (filter_queryset self c w) = w.
Proof. unfold filter_queryset. now rewrite filter_queryset_from_fold. Qed.

Lemma get_lookup_request_field_world (self : Service) (c : Collection) (w : World) :
  snd (get_lookup_request_field self (Some c) w) = w.
Proof.
  unfold get_lookup_request_field. rewrite bind_ret.
  destruct (truthy (lookup_field self)) eqn:Hlf.
  - destruct (truthy_Some _ Hlf) as (lf & Heq & Hne).
    rewrite (py_or_true _ _ lf Heq Hne), bind_ret.
    unfold bind. now rewrite py_or_ret.
  - rewrite (py_or_false _ _ Hlf).
    destruct c as [q|oid items]; simpl.
    + rewrite bind_ret. destruct (get_model_pk (model q)) as [pk|e].
      * rewrite call_Return, !bind_ret. unfold bind. now rewrite py_or_ret.
      * now rewrite call_Raise, !bind_raise_l.
    + reflexivity.
Qed.

Lemma except_not_found_raises (c : Collection) (v : value) (e : exn) (w : World) :
  exists e', except_not_found c v e w = (Raise e', w).
Proof.
  unfold except_not_found.
  destruct (caught (exn_cls e)); [|now exists e].
  destruct c as [q|oid items]; simpl; eexists; reflexivity.
Qed.

Lemma pair_eta {A B} (p : A * B) (b : B) : snd p = b -> p = (fst p, b).
Proof. intros <-. now destruct p. Qed.

(** The result of the shared steps once the lookup is resolved. *)
Lemma resolve_object_resolved (check : Service -> Entity -> outcome unit)
  (self : Service) (w : World) (c : Collection) (name : string) (v : value) :
  lookup_resolved self w c name v ->
  exists w1,
    resolve_object check self w =
    (let* obj :=
       try_except (call (get_object_or_404 c name v)) (except_not_found c v) in
     let* _ := call (check self obj) in
     ret obj) w1.
Proof.
  intros (c0 & w1 & H0 & H1 & H2 & Hreq). exists w1.
  unfold resolve_object.
  rewrite (bind_return _ _ w w1 c0 H0), (bind_return _ _ w1 w1 c H1),
    (bind_return _ _ w1 w1 name H2).
  now rewrite (hasattr_Some _ _ _ Hreq), (getattr_Some _ _ _ Hreq).
Qed.

(** An entity comes out of the shared steps only through the query and the
    permission check. *)
Lemma resolve_object_returns (check : Service -> Entity -> outcome unit)
  (self : Service) (w : World) (obj : Entity) :
  fst (resolve_object check self w) = Return obj ->
  exists c name v,
    lookup_resolved self w c name v /\
    get_object_or_404 c name v = Return obj /\
    check self obj = Return tt.
Proof.
  unfold resolve_object, lookup_resolved.
  unfold bind at 1.
  destruct (get_queryset self w) as [[c0|e0] w1] eqn:H0; [|discriminate].
  unfold bind at 1.
  rewrite (pair_eta _ _ (filter_queryset_world self c0 w1)).
  destruct (fst (filter_queryset self c0 w1)) as [c|e1] eqn:H1; [|discriminate].
  unfold bind at 1.
  rewrite (pair_eta _ _ (get_lookup_request_field_world self c w1)).
  destruct (fst (get_lookup_request_field self (Some c) w1)) as [name|e2] eqn:H2;
    [|discriminate].
  unfold bind at 1. unfold hasattr, getattr.
  destruct (request self !! name) as [v|] eqn:Hreq; simpl; [|discriminate].
  rewrite bind_ret. unfold bind, try_except, call.
  destruct (get_object_or_404 c name v) as [obj'|e3] eqn:Hget.
  - destruct (check self obj') as [[]|e4] eqn:Hcheck; simpl; [|discriminate].
    intros Hobj. injection Hobj as <-.
    exists c, name, v. split; [|split; [exact Hget|exact Hcheck]].
    exists c0, w1. repeat split; try assumption.
    + rewrite <- H1. apply pair_eta, filter_queryset_world.
    + rewrite <- H2. apply pair_eta, get_lookup_request_field_world.
  - destruct (except_not_found_raises c v e3 w1) as [e' He']. rewrite He'.
    discriminate.
Qed.

(** ** get_object and aget_object: the entity returned *)

(** X1: an entity that [get_object] returns is the one [get_object_or_404]
    returned for the filtered collection and the request's value under the
    resolved lookup name, and [check_object_permissions] passed on it;
    likewise for [aget_object] and [acheck_object_permissions]. *)
Theorem get_object_returns_checked_entity (self : Service) (w : World) (obj : Entity) :
  (fst (get_object self w) = Return obj ->
   exists c name v,
     lookup_resolved self w c name v /\
     get_object_or_404 c name v = Return obj /\
     check_object_permissions self obj = Return tt) /\
  (fst (run_until_complete (aget_object self) w) = Return obj ->
   exists c name v,
     lookup_resolved self w c name v /\
     get_object_or_404 c name v = Return obj /\
     acheck_object_permissions self obj = Return tt).
Proof.
  split.
  - rewrite get_object_resolve_object. apply resolve_object_returns.
  - rewrite aget_object_resolve_object. apply resolve_object_returns.
Qed.

(** X2: once the lookup is resolved and [get_object_or_404] returns an
    entity, the permission check decides: [get_object] returns the entity
    when [check_object_permissions] passes, and raises what the check raises
    otherwise; [aget_object] likewise with [acheck_object_permissions]. *)
Theorem get_object_permission_check_decides (self : Service) (w : World)
  (c : Collection) (name : string) (v : value) (obj : Entity) :
  lookup_resolved self w c name v ->
  get_object_or_404 c name v = Return obj ->
  fst (get_object self w) =
    match check_object_permissions self obj with
    | Return _ => Return obj
    | Raise e => Raise e
    end /\
  fst (run_until_complete (aget_object self) w) =
    match acheck_object_permissions self obj with
    | Return _ => Return obj
    | Raise e => Raise e
    end.
Proof.
  intros Hres Hget.
  rewrite get_object_resolve_object, aget_object_resolve_object.
  destruct (resolve_object_resolved check_object_permissions self w c name v Hres)
    as [w1 ->].
  destruct (resolve_object_resolved acheck_object_permissions self w c name v Hres)
    as [w1' ->].
  rewrite Hget. unfold try_except, bind, call. simpl.
  split.
  - now destruct (check_object_permissions self obj).
  - now destruct (acheck_object_permissions self obj).
Qed.


(** ** get_object and aget_object: failures before the query *)

(** X3: on a service that declares no [queryset], [get_object] and
    [aget_object] raise the [AssertionError] of [get_queryset] and leave the
    world as it is, whatever the filter backends, the query and the
    permission checks are. *)
Theorem get_object_undeclared_queryset (self : Service) (w : World) :
  queryset self = None ->
  get_object self w = (Raise (Exn AssertionError (queryset_assertion self)), w) /\
  run_until_complete (aget_object self) w =
    (Raise (Exn AssertionError (queryset_assertion self)), w).
Proof.
  intros Hq.
  rewrite get_object_resolve_object, aget_object_resolve_object.
  unfold resolve_object, bind.
  now rewrite (get_queryset_undeclared self w Hq).
Qed.

(** X4: an exception of the filter chain is the exception of [get_object]
    and of [aget_object]: the lookup, the query and the permission check do
    not run. *)
Theorem get_object_filter_error_propagates (self : Service) (w w1 : World)
  (c0 : Collection) (e : exn) :
  get_queryset self w = (Return c0, w1) ->
  fst (filter_queryset self c0 w1) = Raise e ->
  get_object self w = (Raise e, w1) /\
  run_until_complete (aget_object self) w = (Raise e, w1).
Proof.
  intros H0 H1.
  rewrite get_object_resolve_object, aget_object_resolve_object.
  unfold resolve_object.
  rewrite !(bind_return _ _ w w1 c0 H0).
  unfold bind.
  rewrite (pair_eta _ _ (filter_queryset_world self c0 w1)), H1.
  split; reflexivity.
Qed.

(** X5: for a collection that is no [QuerySet], an exception of the query
    that the [except] clause catches does not become a [NotFound]: the
    handler reads [queryset.model] for the message, and [get_object] and
    [aget_object] raise the [AttributeError] of that read. *)
Theorem get_object_without_model_attribute (self : Service) (w : World)
  (oid : nat) (items : list Entity) (name : string) (v : value) (e : exn) :
  lookup_resolved self w (CIterable oid items) name v ->
  get_object_or_404 (CIterable oid items) name v = Raise e ->
  caught (exn_cls e) = true ->
  exists msg,
    fst (get_object self w) = Raise (Exn AttributeError msg) /\
    fst (run_until_complete (aget_object self) w) = Raise (Exn AttributeError msg).
Proof.
  intros Hres Hget Hc.
  rewrite get_object_resolve_object, aget_object_resolve_object.
  destruct (resolve_object_resolved check_object_permissions self w _ name v Hres)
    as [w1 ->].
  destruct (resolve_object_resolved acheck_object_permissions self w _ name v Hres)
    as [w1' ->].
  rewrite Hget. unfold try_except, bind, call, except_not_found. rewrite Hc. simpl.
  eexists. split; reflexivity.
Qed.

(** ** get_lookup_request_field: the collection *)

(** X6: called without a collection, [get_lookup_request_field] takes the
    one of [get_queryset]: on a service that declares no [queryset] it
    raises the [AssertionError] of [get_queryset], both overrides set or
    not; otherwise it answers as for the collection [get_queryset] returns,
    in the world [get_queryset] leaves. *)
Theorem get_lookup_request_field_default_collection (self : Service) (w : World) :
  (queryset self = None ->
   get_lookup_request_field self None w =
     (Raise (Exn AssertionError (queryset_assertion self)), w)) /\
  (forall c0 w1, get_queryset self w = (Return c0, w1) ->
     get_lookup_request_field self None w =
     get_lookup_request_field self (Some c0) w1).
Proof.
  split.
  - intros Hq. unfold get_lookup_request_field, bind.
    now rewrite (get_queryset_undeclared self w Hq).
  - intros c0 w1 H0. unfold get_lookup_request_field.
    now rewrite (bind_return _ _ w w1 c0 H0), bind_ret.
Qed.


(** ** The filter chain: a backend that raises *)

(** X8: when the backends before [b] filter the collection to [c'] and [b]
    raises on [c'], [filter_queryset] and [afilter_queryset] raise that
    exception, whatever the backends after [b] are: they are not called. *)
Theorem filter_queryset_stops_at_first_error (self : Service) (c c' : Collection)
  (w : World) (bs1 bs2 : list FilterBackend) (b : FilterBackend) (e : exn) :
  filter_backends = (bs1 ++ b :: bs2)%list ->
  filter_queryset_from self bs1 c w = (Return c', w) ->
  backend_fn b (context self) c' self = Raise e ->
  filter_queryset self c w = (Raise e, w) /\
  run_until_complete (afilter_queryset self c) w = (Raise e, w).
Proof.
  intros Hbs H1 Hb.
  rewrite filter_queryset_from_fold in H1. injection H1 as H1.
  assert (Hfold : fold_filter_chain (map backend_fn filter_backends)
                    (context self) self c = Raise e).
  { rewrite Hbs, map_app, fold_filter_chain_app, H1.
    change (map backend_fn (b :: bs2)) with (backend_fn b :: map backend_fn bs2).
    now rewrite fold_filter_chain_cons, Hb. }
  unfold run_until_complete, afilter_queryset, filter_queryset, await.
  now rewrite filter_queryset_from_fold, afilter_queryset_from_fold, Hfold.
Qed.


(** ** get_serializer: what the constructor receives *)

(** X9: with a serializer class, [get_serializer] and [aget_serializer]
    return or raise what the constructor does on the caller's positional
    arguments and on keyword arguments that are the caller's but for
    [context]: a [context] the caller passed is left as it is, a missing one
    is the serializer context.  Without a serializer class both raise the
    [AssertionError] of [get_serializer_class]. *)
Theorem get_serializer_constructor_arguments (self : Service) (args : list KwArg)
  (kwargs : gmap string KwArg) (w : World) :
  (serializer_class = None ->
   get_serializer self args kwargs w =
     (Raise (Exn AssertionError (serializer_class_assertion self)), w) /\
   run_until_complete (aget_serializer self args kwargs) w =
     (Raise (Exn AssertionError (serializer_class_assertion self)), w)) /\
  (forall cls, serializer_class = Some cls ->
   exists kwargs',
     get_serializer self args kwargs w = (cls args kwargs', w) /\
     run_until_complete (aget_serializer self args kwargs) w = (cls args kwargs', w) /\
     (forall key, key <> "context" -> kwargs' !! key = kwargs !! key) /\
     (is_Some (kwargs !! "context") -> kwargs' = kwargs) /\
     (kwargs !! "context" = None ->
      kwargs' !! "context" = Some (KwDict (get_serializer_context self)))).
Proof.
  split.
  - intros Hcls.
    unfold run_until_complete, aget_serializer, get_serializer, get_serializer_class.
    rewrite Hcls. split; reflexivity.
  - intros cls Hcls.
    exists (setdefault kwargs "context" (KwDict (get_serializer_context self))).
    unfold run_until_complete, aget_serializer, get_serializer, get_serializer_class.
    rewrite Hcls. simpl. rewrite !bind_ret.
    split; [reflexivity|]. split; [reflexivity|].
    unfold setdefault.
    destruct (kwargs !! "context") as [c|] eqn:Hctx.
    + split; [reflexivity|]. split; [reflexivity|]. discriminate.
    + split; [|split].
      * intros key Hkey. now rewrite lookup_insert_ne.
      * intros [c Hc]. discriminate.
      * intros _. apply lookup_insert_eq.
Qed.

(** ** paginator and paginate_queryset: the cached instance *)

Lemma paginator_consistent_keeps (self self1 : Service) (p : option Paginator)
  (w w1 : World) :
  paginator_consistent self ->
  paginator self w = (Return (p, self1), w1) ->
  paginator_consistent self1 /\ pg_class <$> p = pagination_class self /\
  pagination_class self1 = pagination_class self.
Proof.
  unfold paginator_consistent, paginator. intros Hc Hp.
  destruct (_paginator self) as [p0|] eqn:Hslot.
  - injection Hp as <- <- <-. rewrite Hslot. auto.
  - destruct (pagination_class self) as [cls|] eqn:Hcls;
      injection Hp as <- <- <-; simpl; rewrite ?Hcls; auto.
Qed.

(** What [paginate_queryset] does, on any instance. *)
Lemma paginate_queryset_cases (self : Service) (queryset : Collection) (w : World) :
  exists p self1 w1,
    paginator self w = (Return (p, self1), w1) /\
    paginate_queryset self queryset w =
    (match p with
     | None => Return (None, self1)
     | Some pg =>
         match paginator_paginate_queryset pg queryset (context self) self1 with
         | Return page => Return (page, self1)
         | Raise e => Raise e
         end
     end, w1).
Proof.
  destruct (paginator_total self w) as (p & self1 & w1 & Hp & Hself & _).
  exists p, self1, w1. split; [exact Hp|].
  unfold paginate_queryset. rewrite (bind_return _ _ _ _ _ Hp).
  destruct p as [pg|]; [|reflexivity].
  rewrite (bind_return _ _ _ _ _ (paginator_cached _ _ _ _ _ Hp w1)).
  assert (Hctx : context self1 = context self).
  { destruct Hself as [->| ->]; reflexivity. }
  rewrite Hctx, bind_call.
  now destruct (paginator_paginate_queryset pg queryset (context self) self1).
Qed.

(** X10: the [_paginator] attribute stays what [pagination_class] builds.
    On an instance for which it is so (a new instance has no such
    attribute), [paginator] reads [None] exactly when [pagination_class] is
    [None] and otherwise an instance of that class, and the instance that
    [paginator] and [paginate_queryset] leave is again such an instance. *)
Theorem paginator_consistent_invariant (self : Service) (w : World) :
  paginator_consistent self ->
  (forall p self1 w1, paginator self w = (Return (p, self1), w1) ->
     paginator_consistent self1 /\
     (p = None <-> pagination_class self = None) /\
     (forall pg, p = Some pg -> pagination_class self = Some (pg_class pg))) /\
  (forall queryset page self1 w1,
     paginate_queryset self queryset w = (Return (page, self1), w1) ->
     paginator_consistent self1).
Proof.
  intros Hc. split.
  - intros p self1 w1 Hp.
    destruct (paginator_consistent_keeps _ _ _ _ _ Hc Hp) as (Hc1 & Hcls & _).
    split; [exact Hc1|]. split.
    + split.
      * intros ->. now rewrite <- Hcls.
      * intros Hnone. rewrite Hnone in Hcls. now destruct p.
    + intros pg ->. now rewrite <- Hcls.
  - intros queryset page self1 w1 Hpage.
    destruct (paginate_queryset_cases self queryset w) as (p & self' & w' & Hp & Heq).
    destruct (paginator_consistent_keeps _ _ _ _ _ Hc Hp) as (Hc1 & _).
    rewrite Heq in Hpage.
    destruct p as [pg|].
    + destruct (paginator_paginate_queryset pg queryset (context self) self');
        [|discriminate].
      now injection Hpage as _ <- _.
    + now injection Hpage as _ <- _.
Qed.


(** X12: after a call of [paginate_queryset] that returned, a further call
    on the instance constructs nothing: it reads the paginator the first
    call read, leaves the world and the instance as they are, and returns
    [None] or hands the new collection to that paginator. *)
Theorem paginate_queryset_reuses_paginator (self self1 : Service)
  (queryset1 queryset2 : Collection) (page : option Page) (w w1 w' : World) :
  paginate_queryset self queryset1 w = (Return (page, self1), w1) ->
  exists p,
    paginator self w = (Return (p, self1), w1) /\
    paginator self1 w' = (Return (p, self1), w') /\
    paginate_queryset self1 queryset2 w' =
    (match p with
     | None => Return (None, self1)
     | Some pg =>
         match paginator_paginate_queryset pg queryset2 (context self1) self1 with
         | Return page2 => Return (page2, self1)
         | Raise e => Raise e
         end
     end, w').
Proof.
  intros Hpage.
  destruct (paginate_queryset_cases self queryset1 w) as (p & self' & w1' & Hp & Heq).
  rewrite Heq in Hpage.
  assert (Hsame : self' = self1 /\ w1' = w1).
  { destruct p as [pg|].
    - destruct (paginator_paginate_queryset pg queryset1 (context self) self');
        [|discriminate].
      now injection Hpage as _ <- <-.
    - now injection Hpage as _ <- <-. }
  destruct Hsame as [-> ->].
  exists p. split; [exact Hp|].
  pose proof (paginator_cached _ _ _ _ _ Hp w') as Hc. split; [exact Hc|].
  destruct (paginate_queryset_cases self1 queryset2 w') as (p2 & self2 & w2 & Hp2 & Heq2).
  rewrite Hc in Hp2. injection Hp2 as <- <- <-. exact Heq2.
Qed.


End GenericService.

(** * The methods on the demo deployment *)

(** ** get_queryset *)

Lemma get_queryset_fresh_per_call_witness :
  queryset (Demo.by_id ∅) = Some (CQuerySet Demo.users) /\
  qs_oid Demo.users < next_oid Demo.world /\
  exists q1 q2 w1 w2,
    get_queryset (Demo.by_id ∅) Demo.world = (Return (CQuerySet q1), w1) /\
    get_queryset (Demo.by_id ∅) w1 = (Return (CQuerySet q2), w2) /\
    qs_oid q1 <> qs_oid Demo.users /\ qs_oid q2 <> qs_oid Demo.users /\
    qs_oid q1 <> qs_oid q2 /\
    rows q1 = rows Demo.users /\ rows q2 = rows Demo.users.
Proof.
  assert (Hlt : qs_oid Demo.users < next_oid Demo.world) by (simpl; lia).
  split; [reflexivity|]. split; [exact Hlt|].
  destruct (get_queryset_fresh_per_call (Demo.by_id ∅) Demo.world) as (_ & _ & H).
  destruct (H Demo.users eq_refl Hlt)
    as (q1 & q2 & w1 & w2 & H1 & H2 & _ & _ & N1 & N2 & N12 & _ & R1 & _ & R2).
  exists q1, q2, w1, w2. repeat split; assumption.
Defined.

Example get_queryset_undeclared_demo :
  get_queryset (Demo.service None None None None ∅) Demo.world =
  (Raise (Exn AssertionError
            "'UserService' should either include a ``queryset`` attribute, or override the ``get_queryset()`` method."),
   Demo.world).
Proof. reflexivity. Qed.

Lemma get_queryset_iterable_same_object_witness :
  queryset (Demo.service (Some Demo.user_list) None None None ∅) = Some Demo.user_list /\
  get_queryset (Demo.service (Some Demo.user_list) None None None ∅) Demo.world =
    (Return Demo.user_list, Demo.world) /\
  get_queryset (Demo.service (Some Demo.user_list) None None None ∅) Demo.world_after =
    (Return Demo.user_list, Demo.world_after).
Proof.
  split; [reflexivity|].
  destruct (get_queryset_iterable_same_object
              (Demo.service (Some Demo.user_list) None None None ∅)
              2 [Demo.user 1 "ada"; Demo.user 2 "bob"; Demo.user 3 "bob"]
              Demo.world Demo.world_after eq_refl) as (H1 & H2 & _).
  split; [exact H1|exact H2].
Defined.

(** ** get_lookup_request_field *)

(** The spec's two examples: primary key [id] and no override resolves to
    [id]; the lookup field [name] and no request-field override resolves to
    [name]; and a request-field override wins over both. *)
Lemma get_lookup_request_field_precedence_witness :
  get_lookup_request_field ModelMeta.get_model_pk (Demo.by_id ∅)
    (Some (CQuerySet Demo.users)) Demo.world = (Return "id", Demo.world) /\
  get_lookup_request_field ModelMeta.get_model_pk (Demo.by_name ∅)
    (Some (CQuerySet Demo.users)) Demo.world = (Return "name", Demo.world) /\
  get_lookup_request_field ModelMeta.get_model_pk
    (Demo.service (Some (CQuerySet Demo.users)) (Some "name") (Some "user_name") None ∅)
    (Some (CQuerySet Demo.users)) Demo.world = (Return "user_name", Demo.world).
Proof.
  split; [|split].
  - destruct (get_lookup_request_field_precedence ModelMeta.get_model_pk
                (Demo.by_id ∅) Demo.world) as (_ & H & _).
    exact (H Demo.users
             {| field_name := "id"; primary_key := true; field_kind := IntegerField |}
             eq_refl eq_refl).
  - destruct (get_lookup_request_field_precedence ModelMeta.get_model_pk
                (Demo.by_name ∅) Demo.world) as (H & _).
    refine (H "name" (CQuerySet Demo.users) eq_refl _). discriminate.
  - destruct (get_lookup_request_field_precedence ModelMeta.get_model_pk
                (Demo.service (Some (CQuerySet Demo.users)) (Some "name")
                   (Some "user_name") None ∅) Demo.world) as (H & _).
    refine (H "name" (CQuerySet Demo.users) eq_refl _). discriminate.
Defined.

(** ** The filter chain *)

(** Two backends that each append a tag: the tag of the first comes before
    the tag of the second, whichever of the two is a coroutine function and
    whichever of the two methods runs the chain. *)
Example filter_chain_tags_in_order :
  forall a b : bool,
    let A := (if a then AsyncBackend else SyncBackend) (Demo.append_tag "A") in
    let B := (if b then AsyncBackend else SyncBackend) (Demo.append_tag "B") in
    (exists c, fst (filter_queryset [A; B] (Demo.by_id ∅) (CQuerySet Demo.users)
                      Demo.world) = Return c /\
               Demo.tags c = [VStr "A"; VStr "B"]) /\
    (exists c, fst (run_until_complete
                      (afilter_queryset [A; B] (Demo.by_id ∅) (CQuerySet Demo.users))
                      Demo.world) = Return c /\
               Demo.tags c = [VStr "A"; VStr "B"]).
Proof.
  intros [] []; split; eexists; split; try reflexivity; vm_compute; reflexivity.
Qed.

(** ** get_object and aget_object *)

(** A request without the lookup attribute [id]. *)
Lemma get_object_missing_lookup_attribute_witness :
  request (Demo.by_id {[ "uuid" := VStr "2" ]}) !! "id" = None /\
  get_object ModelMeta.get_model_pk Django.get_object_or_404 [] Demo.allow_any
    (Demo.by_id {[ "uuid" := VStr "2" ]}) Demo.world =
  (Raise (Exn AssertionError
            (lookup_assertion (Demo.by_id {[ "uuid" := VStr "2" ]}) "id")),
   Demo.world_after).
Proof.
  split; [reflexivity|].
  refine (proj1 (get_object_missing_lookup_attribute
                   ModelMeta.get_model_pk Django.get_object_or_404 []
                   Demo.allow_any Demo.allow_any
                   (Demo.by_id {[ "uuid" := VStr "2" ]})
                   Demo.world Demo.world_after Demo.world_after Demo.world_after
                   (CQuerySet Demo.users_handle) (CQuerySet Demo.users_handle) "id"
                   _ _ _ _)); reflexivity.
Defined.

(** No user has the id 99: [get_object_or_404] raises [Http404], and the
    caller sees the [NotFound] with the model's name and the value. *)
Lemma get_object_not_found_translation_witness :
  Django.get_object_or_404 (CQuerySet Demo.users_handle) "id" (VInt 99) =
    Raise (Exn Http404 "No User matches the given query.") /\
  get_object ModelMeta.get_model_pk Django.get_object_or_404 [] Demo.allow_any
    (Demo.by_id {[ "id" := VInt 99 ]}) Demo.world =
  (Raise (ExnFrom NotFound "User: 99 not found!"
            (Exn Http404 "No User matches the given query.")),
   Demo.world_after) /\
  run_until_complete
    (aget_object ModelMeta.get_model_pk Django.get_object_or_404 [] Demo.allow_any
       (Demo.by_id {[ "id" := VInt 99 ]})) Demo.world =
  (Raise (ExnFrom NotFound "User: 99 not found!"
            (Exn Http404 "No User matches the given query.")),
   Demo.world_after).
Proof.
  assert (Hget : Django.get_object_or_404 (CQuerySet Demo.users_handle) "id" (VInt 99) =
                 Raise (Exn Http404 "No User matches the given query."))
    by reflexivity.
  assert (Hreq : request (Demo.by_id {[ "id" := VInt 99 ]}) !! "id" = Some (VInt 99))
    by reflexivity.
  split; [exact Hget|].
  destruct (get_object_not_found_translation
              ModelMeta.get_model_pk Django.get_object_or_404 []
              Demo.allow_any Demo.allow_any
              (Demo.by_id {[ "id" := VInt 99 ]})
              Demo.world Demo.world_after Demo.world_after Demo.world_after
              (CQuerySet Demo.users_handle) Demo.users_handle "id" (VInt 99)
              (Exn Http404 "No User matches the given query.")
              eq_refl eq_refl eq_refl Hreq Hget) as (H & _).
  destruct (H eq_refl) as (H1 & H2 & _).
  split; [exact H1|exact H2].
Defined.

(** Text where the integer field wants a number: the [ValueError] of the
    persistence layer is translated as well. *)
Example get_object_value_error_demo :
  fst (get_object ModelMeta.get_model_pk Django.get_object_or_404 [] Demo.allow_any
         (Demo.by_id {[ "id" := VStr "abc" ]}) Demo.world) =
  Raise (ExnFrom NotFound "User: abc not found!"
           (Exn ValueError "Field 'id' expected a number but got 'abc'.")).
Proof. vm_compute. reflexivity. Qed.

Example get_object_found_demo :
  fst (get_object ModelMeta.get_model_pk Django.get_object_or_404 [] Demo.allow_any
         (Demo.by_id {[ "id" := VInt 2 ]}) Demo.world) = Return (Demo.user 2 "bob").
Proof. vm_compute. reflexivity. Qed.

(** Against C1 as stated: two users are named bob, so the query of a
    service that looks users up by [name] matches several entities.
    [get_object_or_404] then raises [MultipleObjectsReturned], which is none
    of the classes the [except] clause names: [get_object] and [aget_object]
    raise it as it is, and no [NotFound]. *)
Lemma get_object_multiple_matches_not_translated :
  List.length
    (List.filter (fun e => bool_decide (attrs e !! "name" = Some (VStr "bob")))
       (rows Demo.users_handle)) = 2 /\
  fst (get_object ModelMeta.get_model_pk Django.get_object_or_404 [] Demo.allow_any
         (Demo.by_name {[ "name" := VStr "bob" ]}) Demo.world) =
    Raise (Exn MultipleObjectsReturned
             "get() returned more than one User -- it returned 2!") /\
  fst (run_until_complete
         (aget_object ModelMeta.get_model_pk Django.get_object_or_404 []
            Demo.allow_any (Demo.by_name {[ "name" := VStr "bob" ]})) Demo.world) =
    Raise (Exn MultipleObjectsReturned
             "get() returned more than one User -- it returned 2!") /\
  exn_cls (Exn MultipleObjectsReturned
             "get() returned more than one User -- it returned 2!") <> NotFound.
Proof.
  split; [vm_compute; reflexivity|].
  split; [vm_compute; reflexivity|].
  split; [vm_compute; reflexivity|discriminate].
Qed.

Lemma get_object_aget_object_agree_witness :
  (forall obj, Demo.allow_any (Demo.by_id {[ "id" := VInt 2 ]}) obj =
               Demo.allow_any (Demo.by_id {[ "id" := VInt 2 ]}) obj) /\
  get_object ModelMeta.get_model_pk Django.get_object_or_404
    [SyncBackend (Demo.append_tag "A"); AsyncBackend (Demo.append_tag "B")]
    Demo.allow_any (Demo.by_id {[ "id" := VInt 2 ]}) Demo.world =
  run_until_complete
    (aget_object ModelMeta.get_model_pk Django.get_object_or_404
       [SyncBackend (Demo.append_tag "A"); AsyncBackend (Demo.append_tag "B")]
       Demo.allow_any (Demo.by_id {[ "id" := VInt 2 ]})) Demo.world.
Proof.
  split; [reflexivity|].
  apply (get_object_aget_object_agree ModelMeta.get_model_pk Django.get_object_or_404
           [SyncBackend (Demo.append_tag "A"); AsyncBackend (Demo.append_tag "B")]
           Demo.allow_any Demo.allow_any).
  reflexivity.
Defined.

(** ** get_serializer *)

Lemma get_serializer_context_exactly_three_witness :
  (∅ : gmap string KwArg) !! "context" = None /\
  size (get_serializer_context (Demo.by_id ∅)) = 3 /\
  get_serializer Demo.recorded (Some Demo.recording_serializer) (Demo.by_id ∅)
    [] ∅ Demo.world =
  (Return ([], <["context" := KwDict (get_serializer_context (Demo.by_id ∅))]> ∅),
   Demo.world).
Proof.
  assert (Hno : (∅ : gmap string KwArg) !! "context" = None) by reflexivity.
  split; [exact Hno|].
  destruct (get_serializer_context_exactly_three Demo.recorded
              (Some Demo.recording_serializer) (Demo.by_id ∅) [] ∅ Demo.world Hno)
    as (_ & Hsize & _ & _ & _ & H).
  split; [exact Hsize|].
  exact (proj1 (H Demo.recording_serializer eq_refl)).
Defined.

(** A caller's own [context] is left as it is. *)
Example get_serializer_keeps_supplied_context :
  get_serializer Demo.recorded (Some Demo.recording_serializer) (Demo.by_id ∅)
    [] {[ "context" := KwDict ∅ ]} Demo.world =
  (Return ([], {[ "context" := KwDict ∅ ]}), Demo.world).
Proof. reflexivity. Qed.

(** ** paginator and paginate_queryset *)

Lemma paginator_constructed_once_witness :
  exists p self1 w1,
    paginator Demo.paginated Demo.world = (Return (p, self1), w1) /\
    p = Some {| pg_class := "PageNumberPagination"; pg_oid := 10 |} /\
    paginators_built w1 = [10] /\
    (forall n, paginator_reads (S n) Demo.paginated Demo.world =
               (Return (repeat p (S n), self1), w1)) /\
    (exists pg' other' w3,
       paginator Demo.paginated w1 = (Return (Some pg', other'), w3) /\
       pg_oid pg' <> 10).
Proof.
  destruct (paginator_constructed_once Demo.paginated Demo.world)
    as (p & self1 & w1 & Hp & _ & Hn & _ & _ & Hen & Hother).
  destruct (Hen "PageNumberPagination" eq_refl eq_refl) as (Hpg & Hbuilt).
  exists p, self1, w1.
  split; [exact Hp|]. split; [exact Hpg|]. split; [exact Hbuilt|]. split; [exact Hn|].
  exact (Hother Demo.paginated "PageNumberPagination"
           {| pg_class := "PageNumberPagination"; pg_oid := 10 |} w1
           eq_refl Hpg eq_refl eq_refl (le_n _)).
Defined.

Lemma paginate_queryset_none_or_delegates_witness :
  paginator_consistent (Demo.by_id ∅) /\
  paginator_consistent Demo.paginated /\
  (exists self',
     paginate_queryset Demo.first_two (Demo.by_id ∅) (CQuerySet Demo.users) Demo.world =
       (Return (None, self'), Demo.world) /\
     _paginator self' = Some None) /\
  (exists pg self' w',
     paginator Demo.paginated Demo.world = (Return (Some pg, self'), w') /\
     pg_class pg = "PageNumberPagination" /\
     (self' = Demo.paginated \/ self' = set_paginator Demo.paginated (Some pg)) /\
     paginate_queryset Demo.first_two Demo.paginated (CQuerySet Demo.users) Demo.world =
       (match Demo.first_two pg (CQuerySet Demo.users) (context Demo.paginated) self' with
        | Return page => Return (page, self')
        | Raise e => Raise e
        end, w')).
Proof.
  split; [exact I|]. split; [exact I|]. split.
  - exact (proj1 (paginate_queryset_none_or_delegates Demo.first_two (Demo.by_id ∅)
                    (CQuerySet Demo.users) Demo.world I) eq_refl).
  - exact (proj2 (paginate_queryset_none_or_delegates Demo.first_two Demo.paginated
                    (CQuerySet Demo.users) Demo.world I)
             "PageNumberPagination" eq_refl).
Defined.

Example paginate_queryset_first_page_demo :
  fst (paginate_queryset Demo.first_two Demo.paginated (CQuerySet Demo.users)
         Demo.world) =
  Return (Some [Demo.user 1 "ada"; Demo.user 2 "bob"],
          set_paginator Demo.paginated
            (Some {| pg_class := "PageNumberPagination"; pg_oid := 10 |})).
Proof. reflexivity. Qed.

(** * Further runs on the demo deployment *)

(** ** get_object and aget_object *)

Lemma lookup_resolved_by_id (bs : list FilterBackend) (v : value) :
  (forall c, fold_filter_chain (map backend_fn bs) Demo.grpc_context
               (Demo.by_id {[ "id" := v ]}) c = Return c) ->
  lookup_resolved ModelMeta.get_model_pk bs (Demo.by_id {[ "id" := v ]}) Demo.world
    (CQuerySet Demo.users_handle) "id" v.
Proof.
  intros Hbs. exists (CQuerySet Demo.users_handle), Demo.world_after.
  split; [reflexivity|]. split; [|split].
  - unfold filter_queryset. rewrite filter_queryset_from_fold. now rewrite Hbs.
  - reflexivity.
  - apply lookup_singleton_eq.
Qed.

(** The user with the id 2 is found, and every entity is let through. *)
Lemma get_object_returns_checked_entity_witness :
  fst (get_object ModelMeta.get_model_pk Django.get_object_or_404 [] Demo.allow_any
         (Demo.by_id {[ "id" := VInt 2 ]}) Demo.world) = Return (Demo.user 2 "bob") /\
  exists c name v,
    lookup_resolved ModelMeta.get_model_pk [] (Demo.by_id {[ "id" := VInt 2 ]})
      Demo.world c name v /\
    Django.get_object_or_404 c name v = Return (Demo.user 2 "bob") /\
    Demo.allow_any (Demo.by_id {[ "id" := VInt 2 ]}) (Demo.user 2 "bob") = Return tt.
Proof.
  assert (H : fst (get_object ModelMeta.get_model_pk Django.get_object_or_404 []
                     Demo.allow_any (Demo.by_id {[ "id" := VInt 2 ]}) Demo.world)
              = Return (Demo.user 2 "bob")) by (vm_compute; reflexivity).
  split; [exact H|].
  exact (proj1 (get_object_returns_checked_entity ModelMeta.get_model_pk
                  Django.get_object_or_404 [] Demo.allow_any Demo.allow_any
                  (Demo.by_id {[ "id" := VInt 2 ]}) Demo.world (Demo.user 2 "bob")) H).
Defined.

(** The user with the id 2 is named bob, and the permission check refuses
    the entities of that name. *)
Lemma get_object_permission_check_decides_witness :
  lookup_resolved ModelMeta.get_model_pk [] (Demo.by_id {[ "id" := VInt 2 ]})
    Demo.world (CQuerySet Demo.users_handle) "id" (VInt 2) /\
  Django.get_object_or_404 (CQuerySet Demo.users_handle) "id" (VInt 2) =
    Return (Demo.user 2 "bob") /\
  fst (get_object ModelMeta.get_model_pk Django.get_object_or_404 []
         (Demo.deny_named "bob") (Demo.by_id {[ "id" := VInt 2 ]}) Demo.world) =
    Raise (Exn PermissionDenied "You do not have permission to perform this action.") /\
  fst (run_until_complete
         (aget_object ModelMeta.get_model_pk Django.get_object_or_404 []
            (Demo.deny_named "ada") (Demo.by_id {[ "id" := VInt 2 ]})) Demo.world) =
    Return (Demo.user 2 "bob").
Proof.
  assert (Hres : lookup_resolved ModelMeta.get_model_pk []
                   (Demo.by_id {[ "id" := VInt 2 ]}) Demo.world
                   (CQuerySet Demo.users_handle) "id" (VInt 2))
    by (apply lookup_resolved_by_id; reflexivity).
  assert (Hget : Django.get_object_or_404 (CQuerySet Demo.users_handle) "id" (VInt 2) =
                 Return (Demo.user 2 "bob")) by (vm_compute; reflexivity).
  split; [exact Hres|]. split; [exact Hget|].
  destruct (get_object_permission_check_decides ModelMeta.get_model_pk
              Django.get_object_or_404 [] (Demo.deny_named "bob") (Demo.deny_named "ada")
              (Demo.by_id {[ "id" := VInt 2 ]}) Demo.world
              (CQuerySet Demo.users_handle) "id" (VInt 2) (Demo.user 2 "bob")
              Hres Hget) as [H1 H2].
  split.
  - rewrite H1. vm_compute. reflexivity.
  - rewrite H2. vm_compute. reflexivity.
Defined.

Lemma get_object_undeclared_queryset_witness :
  queryset (Demo.service None (Some "name") None None {[ "name" := VStr "ada" ]}) = None /\
  get_object ModelMeta.get_model_pk Django.get_object_or_404
    [SyncBackend Demo.refusing_filter] Demo.allow_any
    (Demo.service None (Some "name") None None {[ "name" := VStr "ada" ]}) Demo.world =
  (Raise (Exn AssertionError
            (queryset_assertion
               (Demo.service None (Some "name") None None {[ "name" := VStr "ada" ]}))),
   Demo.world).
Proof.
  split; [reflexivity|].
  exact (proj1 (get_object_undeclared_queryset ModelMeta.get_model_pk
                  Django.get_object_or_404 [SyncBackend Demo.refusing_filter]
                  Demo.allow_any Demo.allow_any
                  (Demo.service None (Some "name") None None {[ "name" := VStr "ada" ]})
                  Demo.world eq_refl)).
Defined.

(** The second backend refuses: its exception is the call's, though the
    request names a user that exists. *)
Lemma get_object_filter_error_propagates_witness :
  fst (filter_queryset
         [SyncBackend (Demo.append_tag "A"); AsyncBackend Demo.refusing_filter]
         (Demo.by_id {[ "id" := VInt 2 ]}) (CQuerySet Demo.users_handle)
         Demo.world_after) = Raise (Exn ValidationError "Invalid filter.") /\
  get_object ModelMeta.get_model_pk Django.get_object_or_404
    [SyncBackend (Demo.append_tag "A"); AsyncBackend Demo.refusing_filter]
    Demo.allow_any (Demo.by_id {[ "id" := VInt 2 ]}) Demo.world =
  (Raise (Exn ValidationError "Invalid filter."), Demo.world_after).
Proof.
  assert (H : fst (filter_queryset
                     [SyncBackend (Demo.append_tag "A"); AsyncBackend Demo.refusing_filter]
                     (Demo.by_id {[ "id" := VInt 2 ]}) (CQuerySet Demo.users_handle)
                     Demo.world_after) = Raise (Exn ValidationError "Invalid filter."))
    by reflexivity.
  split; [exact H|].
  exact (proj1 (get_object_filter_error_propagates ModelMeta.get_model_pk
                  Django.get_object_or_404
                  [SyncBackend (Demo.append_tag "A"); AsyncBackend Demo.refusing_filter]
                  Demo.allow_any Demo.allow_any (Demo.by_id {[ "id" := VInt 2 ]})
                  Demo.world Demo.world_after (CQuerySet Demo.users_handle) _
                  eq_refl H)).
Defined.

(** A service on the plain list of users: [get_object_or_404] refuses the
    list with a [ValueError], and the caller sees an [AttributeError]. *)
Lemma get_object_without_model_attribute_witness :
  caught ValueError = true /\
  exists msg,
    fst (get_object ModelMeta.get_model_pk Django.get_object_or_404 [] Demo.allow_any
           (Demo.list_by_name {[ "name" := VStr "ada" ]}) Demo.world) =
      Raise (Exn AttributeError msg) /\
    fst (run_until_complete
           (aget_object ModelMeta.get_model_pk Django.get_object_or_404 []
              Demo.allow_any (Demo.list_by_name {[ "name" := VStr "ada" ]}))
           Demo.world) = Raise (Exn AttributeError msg).
Proof.
  split; [reflexivity|].
  assert (Hres : lookup_resolved ModelMeta.get_model_pk []
                   (Demo.list_by_name {[ "name" := VStr "ada" ]}) Demo.world
                   Demo.user_list "name" (VStr "ada")).
  { exists Demo.user_list, Demo.world. repeat split. }
  exact (get_object_without_model_attribute ModelMeta.get_model_pk
           Django.get_object_or_404 [] Demo.allow_any Demo.allow_any
           (Demo.list_by_name {[ "name" := VStr "ada" ]}) Demo.world
           2 [Demo.user 1 "ada"; Demo.user 2 "bob"; Demo.user 3 "bob"]
           "name" (VStr "ada")
           (Exn ValueError
              "First argument to get_object_or_404() must be a Model, Manager, or QuerySet, not 'list'.")
           Hres eq_refl eq_refl).
Defined.

(** ** get_lookup_request_field *)

Lemma get_lookup_request_field_default_collection_witness :
  get_lookup_request_field ModelMeta.get_model_pk
    (Demo.service None (Some "name") (Some "user_name") None ∅) None Demo.world =
  (Raise (Exn AssertionError
            (queryset_assertion
               (Demo.service None (Some "name") (Some "user_name") None ∅))),
   Demo.world) /\
  get_lookup_request_field ModelMeta.get_model_pk (Demo.by_id ∅) None Demo.world =
  get_lookup_request_field ModelMeta.get_model_pk (Demo.by_id ∅)
    (Some (CQuerySet Demo.users_handle)) Demo.world_after.
Proof.
  split.
  - exact (proj1 (get_lookup_request_field_default_collection ModelMeta.get_model_pk
                    (Demo.service None (Some "name") (Some "user_name") None ∅)
                    Demo.world) eq_refl).
  - exact (proj2 (get_lookup_request_field_default_collection ModelMeta.get_model_pk
                    (Demo.by_id ∅) Demo.world)
             (CQuerySet Demo.users_handle) Demo.world_after eq_refl).
Defined.


(** ** The filter chain *)

(** The backend between the two tagging ones refuses. *)
Lemma filter_queryset_stops_at_first_error_witness :
  filter_queryset
    [SyncBackend (Demo.append_tag "A"); AsyncBackend Demo.refusing_filter;
     SyncBackend (Demo.append_tag "B")]
    (Demo.by_id ∅) (CQuerySet Demo.users) Demo.world =
  (Raise (Exn ValidationError "Invalid filter."), Demo.world) /\
  run_until_complete
    (afilter_queryset
       [SyncBackend (Demo.append_tag "A"); AsyncBackend Demo.refusing_filter;
        SyncBackend (Demo.append_tag "B")]
       (Demo.by_id ∅) (CQuerySet Demo.users)) Demo.world =
  (Raise (Exn ValidationError "Invalid filter."), Demo.world).
Proof.
  eapply (filter_queryset_stops_at_first_error _ (Demo.by_id ∅) (CQuerySet Demo.users) _
            Demo.world [SyncBackend (Demo.append_tag "A")]
            [SyncBackend (Demo.append_tag "B")] (AsyncBackend Demo.refusing_filter)).
  - reflexivity.
  - reflexivity.
  - reflexivity.
Defined.

(** ** get_serializer *)

(** The caller's own [context] and the keyword [many] reach the constructor
    as they are. *)
Lemma get_serializer_constructor_arguments_witness :
  get_serializer Demo.recorded (Some Demo.recording_serializer) (Demo.by_id ∅)
    [KwEntity (Demo.user 1 "ada")]
    {[ "context" := KwDict ∅; "many" := KwBool true ]} Demo.world =
  (Return ([KwEntity (Demo.user 1 "ada")],
           {[ "context" := KwDict ∅; "many" := KwBool true ]}), Demo.world) /\
  get_serializer Demo.recorded None (Demo.by_id ∅)
    [KwEntity (Demo.user 1 "ada")]
    {[ "context" := KwDict ∅; "many" := KwBool true ]} Demo.world =
  (Raise (Exn AssertionError (serializer_class_assertion (Demo.by_id ∅))), Demo.world).
Proof.
  split.
  - destruct (proj2 (get_serializer_constructor_arguments Demo.recorded
                       (Some Demo.recording_serializer) (Demo.by_id ∅)
                       [KwEntity (Demo.user 1 "ada")]
                       {[ "context" := KwDict ∅; "many" := KwBool true ]} Demo.world)
                Demo.recording_serializer eq_refl)
      as (kwargs' & H & _ & _ & Hkeep & _).
    rewrite H, Hkeep; [reflexivity|].
    exists (KwDict ∅). reflexivity.
  - exact (proj1 (proj1 (get_serializer_constructor_arguments Demo.recorded None
                           (Demo.by_id ∅) [KwEntity (Demo.user 1 "ada")]
                           {[ "context" := KwDict ∅; "many" := KwBool true ]}
                           Demo.world) eq_refl)).
Defined.

(** ** paginator and paginate_queryset *)

Lemma paginator_consistent_invariant_witness :
  paginator_consistent Demo.paginated /\
  paginator_consistent
    (set_paginator Demo.paginated
       (Some {| pg_class := "PageNumberPagination"; pg_oid := 10 |})).
Proof.
  split; [exact I|].
  exact (proj2 (paginator_consistent_invariant Demo.first_two Demo.paginated Demo.world I)
           (CQuerySet Demo.users) _ _ _ eq_refl).
Defined.


(** A first page of the users, then a page of the list of users: one
    paginator, constructed by the first call. *)
Lemma paginate_queryset_reuses_paginator_witness :
  exists p,
    paginator Demo.paginated Demo.world =
      (Return (p, set_paginator Demo.paginated
                    (Some {| pg_class := "PageNumberPagination"; pg_oid := 10 |})),
       {| next_oid := 11; paginators_built := [10] |}) /\
    snd (paginate_queryset Demo.first_two
           (set_paginator Demo.paginated
              (Some {| pg_class := "PageNumberPagination"; pg_oid := 10 |}))
           Demo.user_list {| next_oid := 11; paginators_built := [10] |}) =
    {| next_oid := 11; paginators_built := [10] |}.
Proof.
  destruct (paginate_queryset_reuses_paginator Demo.first_two Demo.paginated
              (set_paginator Demo.paginated
                 (Some {| pg_class := "PageNumberPagination"; pg_oid := 10 |}))
              (CQuerySet Demo.users) Demo.user_list
              (Some [Demo.user 1 "ada"; Demo.user 2 "bob"])
              Demo.world {| next_oid := 11; paginators_built := [10] |}
              {| next_oid := 11; paginators_built := [10] |} eq_refl)
    as (p & Hp & _ & Hnext).
  exists p. split; [exact Hp|]. now rewrite Hnext.
Defined.

